(** * Manim cloud rendering service: a shallow embedding

    Two deployable variants of one Flask service are covered:
    - variant A, [cloud-render/app.py]: the artifact is uploaded to object
      storage;
    - variant B, [cloud-render/render-com/app.py]: the artifact stays on local
      disk, with download and status endpoints.

    Python strings are byte strings here (UTF-8), so that the [in] operator of
    Python on [str] is the substring test on [string].

    The boundary of the model: the file system is a finite map from paths to
    the contents of regular files, and its operations do not fail on their
    own; the rendering tool, the storage client, the JSON parser of the
    framework, the clock and the identifier generator are collaborators whose
    behaviour, faults included, is a parameter ([env]). Logging is left
    out. Paths are joined by concatenation, the artifact search compares the
    format literally and lists regular files, and writing text does not fail:
    [render_in_scope] and its parts say when this is what pathlib and [open]
    compute, and the statements that depend on it carry that condition. *)

From Stdlib Require Import ZArith NArith QArith String Ascii List Lia Bool.
From Stdlib.Strings Require Import Byte.
From stdpp Require Import base option gmap strings list pretty.

Import ListNotations.
Set Warnings "-register-all".
Local Open Scope string_scope.
Local Open Scope list_scope.

(** ** Text primitives *)

(** [needle in hay] for two Python [str]: the substring test. *)
Fixpoint contains (needle hay : string) : bool :=
  String.prefix needle hay ||
  match hay with
  | EmptyString => false
  | String _ rest => contains needle rest
  end.

(** [s.removeprefix]-like helper used to model path matching:
    [strip_prefix p s = Some r] exactly when [s = p ++ r]. *)
Fixpoint strip_prefix (p s : string) : option string :=
  match p, s with
  | EmptyString, _ => Some s
  | String a p', String b s' => if Ascii.eqb a b then strip_prefix p' s' else None
  | String _ _, EmptyString => None
  end.

(** [s.endswith(suf)]. *)
Fixpoint ends_with (suf s : string) : bool :=
  String.eqb suf s ||
  match s with
  | EmptyString => false
  | String _ rest => ends_with suf rest
  end.

(** ** Script validation ([ManimRenderer.validate_script], same text in both
    variants) *)

Definition dangerous_imports : list string :=
  [ "subprocess"; "os.system"; "eval"; "exec"; "open";
    "__import__"; "compile"; "globals"; "locals" ].

(** The [for dangerous in dangerous_imports] loop with its early [return]:
    the entry at which the loop returns, if any. *)
Fixpoint scan_dangerous (entries : list string) (script_content : string)
  : option string :=
  match entries with
  | [] => None
  | dangerous :: entries' =>
      if contains dangerous script_content then Some dangerous
      else scan_dangerous entries' script_content
  end.

(** The [except Exception] clause of the source is not reachable on a [str]:
    the [in] tests cannot raise. *)
Definition validate_script (script_content : string) : bool * string :=
  match scan_dangerous dangerous_imports script_content with
  | Some dangerous =>
      (false, "Dangerous function/import detected: " +:+ dangerous)
  | None =>
      if negb (contains "from manim import" script_content)
         && negb (contains "import manim" script_content)
      then (false, "Script must import manim")
      else if negb (contains "class" script_content)
              || negb (contains "Scene" script_content)
      then (false, "Script must contain a Scene class")
      else (true, "Script validation passed")
  end.

(** ** Values *)

(** JSON values: what [request.get_json()] yields and what [jsonify] takes.
    [JNull] is Python's [None]; a [JObj] is a Python [dict] (keys distinct,
    in insertion order). Floats are carried by a rational. *)
Inductive json : Type :=
| JNull
| JBool (b : bool)
| JInt (n : Z)
| JFloat (q : Q)
| JStr (s : string)
| JArr (items : list json)
| JObj (fields : list (string * json)).

(** Python truthiness, as used by [if not data] and [x or y]. *)
Definition truthy (v : json) : bool :=
  match v with
  | JNull => false
  | JBool b => b
  | JInt n => negb (n =? 0)%Z
  | JFloat q => negb (Qeq_bool q 0)
  | JStr s => negb (String.eqb s "")
  | JArr items => match items with [] => false | _ => true end
  | JObj fields => match fields with [] => false | _ => true end
  end.

(** [d.get(key)] on a [dict]; [None] of Python is [JNull]. *)
Fixpoint dict_lookup (d : list (string * json)) (key : string) : option json :=
  match d with
  | [] => None
  | (k, v) :: d' => if String.eqb k key then Some v else dict_lookup d' key
  end.

Definition dict_get (d : list (string * json)) (key : string) (default : json)
  : json :=
  match dict_lookup d key with Some v => v | None => default end.

(** [x or y] where [x] is an optional [str]. *)
Definition str_or (x : option string) (y : string) : string :=
  match x with
  | Some s => if String.eqb s "" then y else s
  | None => y
  end.

Definition json_of_opt_str (x : option string) : json :=
  match x with Some s => JStr s | None => JNull end.

(** [str(n)] for a Python [int]. *)
Definition str_int (n : Z) : string :=
  pretty n.

(** ** Exceptions

    The classes the code tells apart: [subprocess.TimeoutExpired] has an
    [except] clause of its own, everything else is caught as [Exception].
    The argument is [str(e)]. *)
Inductive exn : Type :=
| TimeoutExpired
| ValueError (msg : string)
| RuntimeError (msg : string)
| OtherException (msg : string).

Definition str_exn (e : exn) : string :=
  match e with
  | TimeoutExpired => "Command timed out"
  | ValueError msg | RuntimeError msg | OtherException msg => msg
  end.

(** ** The world: what the service reads and writes *)

(** The file system is a finite map from paths to the bytes of regular files;
    directories are implicit. [runs] lists the commands handed to
    [subprocess.run], [uploads] the (local path, blob name) pairs handed to
    the storage client and [metrics] the points sent to the metrics client,
    most recent first. [uuid_count] counts the calls of [uuid.uuid4]. *)
Record world : Type := World {
  files : gmap string (list byte);
  uuid_count : nat;
  runs : list (list string);
  uploads : list (string * string);
  metrics : list (Q * bool)
}.

Definition set_files (f : gmap string (list byte)) (w : world) : world :=
  World f (uuid_count w) (runs w) (uploads w) (metrics w).

(** What [subprocess.run(cmd, capture_output=True, text=True, timeout=...)]
    can do: the tool runs to its end, it is killed at the timeout, or it
    cannot be started ([OSError]). The files are the file system it leaves. *)
Inductive proc_outcome : Type :=
| Exited (returncode : Z) (stdout stderr : string)
         (files' : gmap string (list byte))
| TimedOut (files' : gmap string (list byte))
| LaunchFailed (msg : string).

(** Faults the interpreter raises on a request field of an unexpected JSON
    type, with the name of the offending type. Their text [str(e)] differs
    between interpreter versions and is a parameter of the environment. *)
Inductive interp_fault : Type :=
| NoLen (type_name : string)          (* [len(x)] *)
| Unhashable (type_name : string)     (* [quality_mapping.get(x, 'm')] *)
| NotIterable (type_name : string)    (* [s in x] *)
| WriteNotStr (type_name : string)    (* [f.write(x)] *)
| JoinNotStr (index : nat) (type_name : string).  (* [' '.join(cmd)] *)

(** Configuration ([Config]) and external collaborators. *)
Record env : Type := Env {
  DEFAULT_QUALITY : string;
  DEFAULT_FORMAT : string;
  MAX_RENDER_TIME : Z;
  BUCKET_NAME : string;
  (** the [manim] executable: command line and file system to outcome *)
  manim : list string -> gmap string (list byte) -> proc_outcome;
  (** [blob.upload_from_filename]: local path and blob name to the exception
      it raises, if any; [None] when the client could not be initialised *)
  storage_client : option (string -> string -> option exn);
  monitoring_client : bool;
  (** the value of the n-th call of [uuid.uuid4] *)
  uuid4_value : nat -> string;
  (** [time.time()] at the start and at the end of a render *)
  clock_start : Q;
  clock_end : Q;
  (** [datetime.utcnow().isoformat()] *)
  utcnow_isoformat : string;
  (** [str(e)] for a fault of the interpreter *)
  interp_error : interp_fault -> string;
  (** [str(v)] for a float, a list or a dict *)
  py_repr : json -> string
}.

(** ** A state and exception monad for the bodies of [try] blocks *)

Definition M (A : Type) : Type := world -> (exn + A) * world.

Definition ret {A} (a : A) : M A := fun w => (inr a, w).

Definition raise {A} (e : exn) : M A := fun w => (inl e, w).

Definition bind {A B} (c : M A) (k : A -> M B) : M B :=
  fun w =>
    match c w with
    | (inl e, w') => (inl e, w')
    | (inr a, w') => k a w'
    end.

Notation "x <- c ;; k" := (bind c (fun x => k))
  (at level 100, c at next level, right associativity).
Notation "c ;;; k" := (bind c (fun _ => k))
  (at level 100, right associativity).

Definition modify (f : world -> world) : M unit := fun w => (inr tt, f w).

Definition gets {A} (f : world -> A) : M A := fun w => (inr (f w), w).

(** ** Base64 ([base64.b64encode] of the Python standard library)

    RFC 4648, standard alphabet, [=] padding: three bytes make a 24-bit group
    that is cut into four 6-bit indices into the alphabet. *)

Definition b64_alphabet : list ascii :=
  list_ascii_of_string
    "ABCDEFGHIJKLMNOPQRSTUVWXYZabcdefghijklmnopqrstuvwxyz0123456789+/".

Definition b64_pad : ascii := "="%char.

Definition b64_char (i : N) : ascii := nth (N.to_nat i) b64_alphabet b64_pad.

Fixpoint position (c : ascii) (l : list ascii) : option N :=
  match l with
  | [] => None
  | x :: l' =>
      if Ascii.eqb x c then Some 0%N
      else option_map N.succ (position c l')
  end.

Definition b64_index (c : ascii) : option N := position c b64_alphabet.

(** The 6-bit index number [k] (0 is the most significant) of a 24-bit
    group. *)
Definition sextet (group : N) (k : N) : N :=
  ((group / 2 ^ (6 * (3 - k))) mod 64)%N.

(** The byte number [k] (0 is the most significant) of a 24-bit group. *)
Definition octet (group : N) (k : N) : byte :=
  match Byte.of_N ((group / 2 ^ (8 * (2 - k))) mod 256)%N with
  | Some b => b
  | None => x00
  end.

Definition group_of_bytes (a b c : byte) : N :=
  (Byte.to_N a * 65536 + Byte.to_N b * 256 + Byte.to_N c)%N.

Definition group_of_sextets (s1 s2 s3 s4 : N) : N :=
  (((s1 * 64 + s2) * 64 + s3) * 64 + s4)%N.

Fixpoint b64encode (data : list byte) : string :=
  match data with
  | [] => ""
  | [a] =>
      let g := group_of_bytes a x00 x00 in
      String (b64_char (sextet g 0)) (String (b64_char (sextet g 1))
        (String b64_pad (String b64_pad "")))
  | [a; b] =>
      let g := group_of_bytes a b x00 in
      String (b64_char (sextet g 0)) (String (b64_char (sextet g 1))
        (String (b64_char (sextet g 2)) (String b64_pad "")))
  | a :: b :: c :: rest =>
      let g := group_of_bytes a b c in
      String (b64_char (sextet g 0)) (String (b64_char (sextet g 1))
        (String (b64_char (sextet g 2)) (String (b64_char (sextet g 3))
          (b64encode rest))))
  end.

(** The inverse transformation, on well-padded text over the alphabet (what
    [base64.b64decode] computes on such text); [None] on anything else. *)
Fixpoint b64decode (text : string) : option (list byte) :=
  match text with
  | "" => Some []
  | String c1 (String c2 (String c3 (String c4 rest))) =>
      match b64_index c1, b64_index c2 with
      | Some s1, Some s2 =>
          if Ascii.eqb c4 b64_pad then
            match rest with
            | "" =>
                if Ascii.eqb c3 b64_pad then
                  Some [octet (group_of_sextets s1 s2 0 0) 0]
                else
                  match b64_index c3 with
                  | Some s3 =>
                      let g := group_of_sextets s1 s2 s3 0 in
                      Some [octet g 0; octet g 1]
                  | None => None
                  end
            | _ => None
            end
          else
            match b64_index c3, b64_index c4, b64decode rest with
            | Some s3, Some s4, Some tail =>
                let g := group_of_sextets s1 s2 s3 s4 in
                Some (octet g 0 :: octet g 1 :: octet g 2 :: tail)
            | _, _, _ => None
            end
      | _, _ => None
      end
  | _ => None
  end.

(** ** File system and process primitives *)

(** [a / b] of [pathlib]: an absolute right operand replaces the left one, an
    empty one leaves it. Separators are not normalised any further. *)
Definition path_join (a b : string) : string :=
  if String.eqb b "" then a
  else if String.prefix "/" b then b
  else a +:+ "/" +:+ b.

(** [open(path, 'w', encoding='utf-8')] followed by [f.write(text)], for a
    text that UTF-8 can encode. *)
Definition write_text (path text : string) : M unit :=
  modify (fun w => set_files (<[path := list_byte_of_string text]> (files w)) w).

(** [path.mkdir(exist_ok=True)]: directories are implicit in [files]. *)
Definition mkdir_exist_ok (path : string) : M unit := ret tt.

(** [path.unlink(missing_ok=True)]. *)
Definition unlink_missing_ok (path : string) (w : world) : world :=
  set_files (delete path (files w)) w.

(** Whether [path] lies below [dir] and its name matches [*.format], the
    format taken literally. *)
Definition glob_match (dir format path : string) : bool :=
  match strip_prefix (dir +:+ "/") path with
  | Some rest => ends_with ("." +:+ format) rest
  | None => false
  end.

(** [list(dir.rglob('*.' + format))]: the regular files below [dir] whose
    name matches, in the listing order of the file system. *)
Definition rglob (dir format : string) (fs : gmap string (list byte))
  : list string :=
  filter (fun p => glob_match dir format p = true) (map fst (map_to_list fs)).

(** [path.stat().st_size]. *)
Definition stat_size (path : string) : M Z :=
  fun w =>
    match files w !! path with
    | Some content => (inr (Z.of_nat (length content)), w)
    | None =>
        (inl (OtherException
                ("[Errno 2] No such file or directory: '" +:+ path +:+ "'")), w)
    end.

(** [open(path, 'rb')] followed by [f.read()]. *)
Definition read_bytes (path : string) : M (list byte) :=
  fun w =>
    match files w !! path with
    | Some content => (inr content, w)
    | None =>
        (inl (OtherException
                ("[Errno 2] No such file or directory: '" +:+ path +:+ "'")), w)
    end.

(** The value of [subprocess.run] when it returns. *)
Record completed_process : Type := CompletedProcess {
  returncode : Z;
  stdout : string;
  stderr : string
}.

Definition subprocess_run (E : env) (cmd : list string) : M completed_process :=
  fun w =>
    let w1 := World (files w) (uuid_count w) (cmd :: runs w) (uploads w)
                    (metrics w) in
    match manim E cmd (files w) with
    | Exited rc out err files' =>
        (inr (CompletedProcess rc out err), set_files files' w1)
    | TimedOut files' => (inl TimeoutExpired, set_files files' w1)
    | LaunchFailed msg => (inl (OtherException msg), w1)
    end.

(** ** Pieces shared by the two variants *)

Definition TEMP_DIR : string := "/app/temp".
Definition OUTPUT_DIR : string := "/app/output".

(** [temp_dir / f"script_{request_id}.py"]. *)
Definition script_path (request_id : string) : string :=
  path_join TEMP_DIR ("script_" +:+ request_id +:+ ".py").

(** The dictionary returned by both [except] clauses of [render_script]. *)
Definition failure_result (E : env) (error_msg request_id : string)
  : list (string * json) :=
  [ ("success", JBool false);
    ("error", JStr error_msg);
    ("request_id", JStr request_id);
    ("timestamp", JStr (utcnow_isoformat E)) ].

(** An HTTP response: [jsonify(body), status]. *)
Record response : Type := Response {
  body : json;
  status : Z
}.

(** What [request.get_json()] does: it raises (a body that does not parse, a
    wrong content type) or returns the parsed value, [JNull] for no body. *)
Inductive get_json_outcome : Type :=
| GetJsonRaises (e : exn)
| GetJsonReturns (data : json).

(** [str(uuid.uuid4())]. *)
Definition uuid4 (E : env) (w : world) : string * world :=
  (uuid4_value E (uuid_count w),
   World (files w) (S (uuid_count w)) (runs w) (uploads w) (metrics w)).

(** The body of the handler's [except Exception as e] clause. *)
Definition internal_error (E : env) (e : exn) : response :=
  Response
    (JObj [ ("success", JBool false);
            ("error", JStr ("Internal server error: " +:+ str_exn e));
            ("timestamp", JStr (utcnow_isoformat E)) ])
    500.

(** An optional [str] field of the request: [None] for an absent or null
    field, [Some] for a string; any other JSON type is outside the typed
    requests this development covers. *)
Definition opt_str_field (v : json) : option (option string) :=
  match v with
  | JNull => Some None
  | JStr s => Some (Some s)
  | _ => None
  end.

(** [type(v).__name__]. *)
Definition py_type_name (v : json) : string :=
  match v with
  | JNull => "NoneType"
  | JBool _ => "bool"
  | JInt _ => "int"
  | JFloat _ => "float"
  | JStr _ => "str"
  | JArr _ => "list"
  | JObj _ => "dict"
  end.

(** [if scene_name: cmd.append(scene_name)]. *)
Definition scene_arg (scene_name : option string) : list string :=
  match scene_name with
  | Some s => if String.eqb s "" then [] else [s]
  | None => []
  end.

(** ** Request fields of any JSON type

    The handler passes the values of [data.get] on unchanged, so
    [render_script] can receive a list, a number or a boolean where it
    expects a [str]. The definitions of this section follow the code on such
    values; on strings they are the definitions above. *)

(** [x or default] for any value [x]. *)
Definition py_or (v : json) (default : string) : json :=
  if truthy v then v else JStr default.

(** [str(v)], as the f-strings apply it. *)
Definition py_str (E : env) (v : json) : string :=
  match v with
  | JStr s => s
  | JNull => "None"
  | JBool true => "True"
  | JBool false => "False"
  | JInt n => str_int n
  | _ => py_repr E v
  end.

(** [needle in container] for a [str] needle: substring of a [str], element
    of a list, key of a dict. *)
Definition py_in (needle : string) (container : json) : bool :=
  match container with
  | JStr s => contains needle s
  | JArr items =>
      existsb (fun x => match x with
                        | JStr s => String.eqb s needle
                        | _ => false
                        end) items
  | JObj fields => existsb (fun kv => String.eqb (fst kv) needle) fields
  | _ => false
  end.

Fixpoint scan_with (mem : string -> bool) (entries : list string)
  : option string :=
  match entries with
  | [] => None
  | dangerous :: entries' =>
      if mem dangerous then Some dangerous else scan_with mem entries'
  end.

(** The body of [validate_script] over a membership test. *)
Definition validate_with (mem : string -> bool) : bool * string :=
  match scan_with mem dangerous_imports with
  | Some dangerous =>
      (false, "Dangerous function/import detected: " +:+ dangerous)
  | None =>
      if negb (mem "from manim import") && negb (mem "import manim")
      then (false, "Script must import manim")
      else if negb (mem "class") || negb (mem "Scene")
      then (false, "Script must contain a Scene class")
      else (true, "Script validation passed")
  end.

(** [validate_script] on any value: on a value that is no container the
    first [in] raises, and the [except] clause of [validate_script] turns the
    exception into a verdict. *)
Definition validate_script_json (E : env) (script_content : json)
  : bool * string :=
  match script_content with
  | JStr s => validate_script s
  | JArr _ | JObj _ => validate_with (fun needle => py_in needle script_content)
  | _ =>
      (false,
       "Validation error: "
         +:+ interp_error E (NotIterable (py_type_name script_content)))
  end.

(** [open(path, 'w')] followed by [f.write(x)]: the file is created, and
    writing anything but a [str] raises. *)
Definition write_script (E : env) (path : string) (script_content : json)
  : M unit :=
  match script_content with
  | JStr s => write_text path s
  | _ =>
      fun w =>
        (inl (OtherException
                (interp_error E (WriteNotStr (py_type_name script_content)))),
         set_files (<[path := []]> (files w)) w)
  end.

(** [' '.join(cmd)], evaluated for the log line before the tool is started:
    it raises at the first item that is not a [str]. *)
Fixpoint join_check (E : env) (index : nat) (cmd : list json)
  : exn + list string :=
  match cmd with
  | [] => inr []
  | JStr s :: rest =>
      match join_check E (S index) rest with
      | inr items => inr (s :: items)
      | inl e => inl e
      end
  | v :: _ =>
      inl (OtherException (interp_error E (JoinNotStr index (py_type_name v))))
  end.

Definition lift_exn {A} (r : exn + A) : M A := fun w => (r, w).

(** ** Variant A: [cloud-render/app.py] *)

Module VariantA.
Section WithEnv.
Variable E : env.

Definition quality_mapping : gmap string string :=
  <["low_quality" := "l"]>
    (<["medium_quality" := "m"]>
       (<["high_quality" := "h"]>
          (<["production_quality" := "p"]>
             (<["4k_quality" := "k"]> ∅)))).

(** [quality_mapping.get(quality, 'm')]. *)
Definition quality_flag (quality : string) : string :=
  default "m" (quality_mapping !! quality).

Definition build_cmd (request_id quality_flag format : string)
    (scene_name : option string) : list string :=
  [ "manim";
    script_path request_id;
    "--output_file"; "video_" +:+ request_id;
    "--media_dir"; path_join OUTPUT_DIR request_id;
    "--quality"; quality_flag;
    "--format"; format;
    "--disable_caching" ] ++ scene_arg scene_name.

Definition _upload_to_gcs (client : string -> string -> option exn)
    (local_file blob_name : string) : M string :=
  fun w =>
    let w1 := World (files w) (uuid_count w) (runs w)
                    ((local_file, blob_name) :: uploads w) (metrics w) in
    match client local_file blob_name with
    | Some e => (inl e, w1)
    | None => (inr ("gs://" +:+ BUCKET_NAME E +:+ "/" +:+ blob_name), w1)
    end.

(** [_report_metrics]: nothing without a monitoring client; otherwise one
    point, and a failure to send it is swallowed. *)
Definition _report_metrics (render_time : Q) (file_size : Z) (success : bool)
    (w : world) : world :=
  if monitoring_client E then
    World (files w) (uuid_count w) (runs w) (uploads w)
          ((render_time, success) :: metrics w)
  else w.

(** The body of the [try] block of [render_script]. *)
Definition render_try (script_content request_id quality format : string)
    (scene_name : option string) : M (list (string * json)) :=
  let '(is_valid, validation_message) := validate_script script_content in
  if negb is_valid then
    raise (ValueError ("Script validation failed: " +:+ validation_message))
  else
    let script_file := script_path request_id in
    write_text script_file script_content ;;;
    let render_output_dir := path_join OUTPUT_DIR request_id in
    mkdir_exist_ok render_output_dir ;;;
    let cmd := build_cmd request_id (quality_flag quality) format scene_name in
    process <- subprocess_run E cmd ;;
    if negb (returncode process =? 0)%Z then
      raise (RuntimeError ("Manim rendering failed: " +:+ stderr process))
    else
      video_files <- gets (fun w => rglob render_output_dir format (files w)) ;;
      match video_files with
      | [] => raise (RuntimeError "No video file found after rendering")
      | video_file :: _ =>
          let blob_name :=
            "videos/" +:+ request_id +:+ "/video_" +:+ request_id
              +:+ "." +:+ format in
          gcs_url <-
            match storage_client E with
            | Some client =>
                url <- _upload_to_gcs client video_file blob_name ;;
                ret (Some url)
            | None => ret None
            end ;;
          let render_time := (clock_end E - clock_start E)%Q in
          file_size <- stat_size video_file ;;
          modify (unlink_missing_ok script_file) ;;;
          let result :=
            [ ("success", JBool true);
              ("request_id", JStr request_id);
              ("video_file", JStr video_file);
              ("gcs_url", json_of_opt_str gcs_url);
              ("blob_name",
                match gcs_url with
                | Some _ => JStr blob_name
                | None => JNull
                end);
              ("file_size", JInt file_size);
              ("render_time", JFloat render_time);
              ("quality", JStr quality);
              ("format", JStr format);
              ("scene_name", json_of_opt_str scene_name);
              ("timestamp", JStr (utcnow_isoformat E));
              ("stdout", JStr (stdout process));
              ("stderr", JStr (stderr process)) ] in
          modify (_report_metrics render_time file_size true) ;;;
          ret result
      end.

Definition render_script (script_content request_id : string)
    (quality format scene_name : option string) (w : world)
  : list (string * json) * world :=
  let quality := str_or quality (DEFAULT_QUALITY E) in
  let format := str_or format (DEFAULT_FORMAT E) in
  let render_time := (clock_end E - clock_start E)%Q in
  let '(result, w2) :=
    match render_try script_content request_id quality format scene_name w with
    | (inr result, w1) => (result, w1)
    | (inl TimeoutExpired, w1) =>
        (failure_result E
           ("Rendering timeout after " +:+ str_int (MAX_RENDER_TIME E)
              +:+ " seconds") request_id,
         _report_metrics render_time 0 false w1)
    | (inl e, w1) =>
        (failure_result E ("Rendering failed: " +:+ str_exn e) request_id,
         _report_metrics render_time 0 false w1)
    end in
  (* finally *)
  (result, unlink_missing_ok (script_path request_id) w2).

(** [quality_mapping.get(quality, 'm')] on any value: a list or a dict is
    not hashable. *)
Definition quality_flag_json (quality : json) : exn + string :=
  match quality with
  | JStr s => inr (quality_flag s)
  | JArr _ | JObj _ =>
      inl (OtherException (interp_error E (Unhashable (py_type_name quality))))
  | _ => inr "m"
  end.

Definition cmd_items (request_id quality_flag : string)
    (format scene_name : json) : list json :=
  [ JStr "manim";
    JStr (script_path request_id);
    JStr "--output_file"; JStr ("video_" +:+ request_id);
    JStr "--media_dir"; JStr (path_join OUTPUT_DIR request_id);
    JStr "--quality"; JStr quality_flag;
    JStr "--format"; format;
    JStr "--disable_caching" ]
    ++ (if truthy scene_name then [scene_name] else []).

(** The body of the [try] block of [render_script], on any values. *)
Definition render_try_json (script_content : json) (request_id : string)
    (quality : json) (quality_flag : string) (format scene_name : json)
  : M (list (string * json)) :=
  let '(is_valid, validation_message) :=
    validate_script_json E script_content in
  if negb is_valid then
    raise (ValueError ("Script validation failed: " +:+ validation_message))
  else
    let script_file := script_path request_id in
    write_script E script_file script_content ;;;
    let render_output_dir := path_join OUTPUT_DIR request_id in
    mkdir_exist_ok render_output_dir ;;;
    cmd <- lift_exn (join_check E 0 (cmd_items request_id quality_flag format
                                               scene_name)) ;;
    process <- subprocess_run E cmd ;;
    if negb (returncode process =? 0)%Z then
      raise (RuntimeError ("Manim rendering failed: " +:+ stderr process))
    else
      video_files <-
        gets (fun w => rglob render_output_dir (py_str E format) (files w)) ;;
      match video_files with
      | [] => raise (RuntimeError "No video file found after rendering")
      | video_file :: _ =>
          let blob_name :=
            "videos/" +:+ request_id +:+ "/video_" +:+ request_id
              +:+ "." +:+ py_str E format in
          gcs_url <-
            match storage_client E with
            | Some client =>
                url <- _upload_to_gcs client video_file blob_name ;;
                ret (Some url)
            | None => ret None
            end ;;
          let render_time := (clock_end E - clock_start E)%Q in
          file_size <- stat_size video_file ;;
          modify (unlink_missing_ok script_file) ;;;
          let result :=
            [ ("success", JBool true);
              ("request_id", JStr request_id);
              ("video_file", JStr video_file);
              ("gcs_url", json_of_opt_str gcs_url);
              ("blob_name",
                match gcs_url with
                | Some _ => JStr blob_name
                | None => JNull
                end);
              ("file_size", JInt file_size);
              ("render_time", JFloat render_time);
              ("quality", quality);
              ("format", format);
              ("scene_name", scene_name);
              ("timestamp", JStr (utcnow_isoformat E));
              ("stdout", JStr (stdout process));
              ("stderr", JStr (stderr process)) ] in
          modify (_report_metrics render_time file_size true) ;;;
          ret result
      end.

(** [render_script] on any values. The quality flag is looked up before the
    [try] block, so an unhashable quality raises out of [render_script]:
    neither its [except] clauses nor its [finally] block see it. *)
Definition render_script_json (script_content : json) (request_id : string)
    (quality format scene_name : json) (w : world)
  : (exn + list (string * json)) * world :=
  let quality := py_or quality (DEFAULT_QUALITY E) in
  let format := py_or format (DEFAULT_FORMAT E) in
  match quality_flag_json quality with
  | inl e => (inl e, w)
  | inr flag =>
      let render_time := (clock_end E - clock_start E)%Q in
      let '(result, w2) :=
        match render_try_json script_content request_id quality flag format
                              scene_name w with
        | (inr result, w1) => (result, w1)
        | (inl TimeoutExpired, w1) =>
            (failure_result E
               ("Rendering timeout after " +:+ str_int (MAX_RENDER_TIME E)
                  +:+ " seconds") request_id,
             _report_metrics render_time 0 false w1)
        | (inl e, w1) =>
            (failure_result E ("Rendering failed: " +:+ str_exn e) request_id,
             _report_metrics render_time 0 false w1)
        end in
      (* finally *)
      (inr result, unlink_missing_ok (script_path request_id) w2)
  end.

(** The handler once the body is an object with a truthy [script]:
    [len(script_content)] for the log line, then [render_script]. *)
Definition render_any (script_content : json) (request_id : string)
    (quality format scene_name : json) (w1 : world)
  : response * world :=
  match script_content with
  | JStr _ | JArr _ | JObj _ =>
      match render_script_json script_content request_id quality format
                               scene_name w1 with
      | (inl e, w2) => (internal_error E e, w2)
      | (inr result, w2) =>
          if truthy (dict_get result "success" JNull)
          then (Response (JObj result) 200, w2)
          else (Response (JObj result) 500, w2)
      end
  | _ =>
      (internal_error E
         (OtherException
            (interp_error E (NoLen (py_type_name script_content)))), w1)
  end.

(** [POST /render]. A request whose fields have the documented types goes
    through [render_script] above; any other request through
    [render_script_json], which agrees with it on such fields. *)
Definition render_video (req : get_json_outcome) (w : world)
  : option (response * world) :=
  let '(request_id, w1) := uuid4 E w in
  match req with
  | GetJsonRaises e => Some (internal_error E e, w1)
  | GetJsonReturns data =>
      if negb (truthy data) then
        Some (Response (JObj [("error", JStr "No JSON data provided")]) 400, w1)
      else
        match data with
        | JObj d =>
            let script_content := dict_get d "script" JNull in
            if negb (truthy script_content) then
              Some (Response (JObj [("error", JStr "No script content provided")])
                             400, w1)
            else
              match script_content,
                    opt_str_field (dict_get d "quality" (JStr (DEFAULT_QUALITY E))),
                    opt_str_field (dict_get d "format" (JStr (DEFAULT_FORMAT E))),
                    opt_str_field (dict_get d "scene_name" JNull) with
              | JStr script, Some quality, Some format, Some scene_name =>
                  let '(result, w2) :=
                    render_script script request_id quality format scene_name w1 in
                  if truthy (dict_get result "success" JNull)
                  then Some (Response (JObj result) 200, w2)
                  else Some (Response (JObj result) 500, w2)
              | _, _, _, _ =>
                  Some (render_any script_content request_id
                          (dict_get d "quality" (JStr (DEFAULT_QUALITY E)))
                          (dict_get d "format" (JStr (DEFAULT_FORMAT E)))
                          (dict_get d "scene_name" JNull) w1)
              end
        | _ =>
            (* [data.get] on a value that is not a dict: AttributeError *)
            Some (internal_error E
                    (OtherException
                       ("'" +:+ py_type_name data
                          +:+ "' object has no attribute 'get'")), w1)
        end
  end.

(** [GET /status/<request_id>]: a placeholder. *)
Definition get_render_status (request_id : string) : response :=
  Response
    (JObj [ ("request_id", JStr request_id);
            ("status", JStr "completed");
            ("message", JStr "Status endpoint not fully implemented yet") ])
    200.

End WithEnv.
End VariantA.

(** ** Variant B: [cloud-render/render-com/app.py] *)

Module VariantB.
Section WithEnv.
Variable E : env.

Definition build_cmd (request_id quality format : string)
    (scene_name : option string) : list string :=
  [ "manim";
    script_path request_id;
    "--output_file"; "video_" +:+ request_id;
    "--media_dir"; path_join OUTPUT_DIR request_id;
    "--" +:+ quality;
    "--format"; format;
    "--disable_caching" ] ++ scene_arg scene_name.

(** The body of the [try] block of [render_script]. *)
Definition render_try (script_content request_id quality format : string)
    (scene_name : option string) (return_base64 : bool)
  : M (list (string * json)) :=
  let '(is_valid, validation_message) := validate_script script_content in
  if negb is_valid then
    raise (ValueError ("Script validation failed: " +:+ validation_message))
  else
    let script_file := script_path request_id in
    write_text script_file script_content ;;;
    let render_output_dir := path_join OUTPUT_DIR request_id in
    mkdir_exist_ok render_output_dir ;;;
    let cmd := build_cmd request_id quality format scene_name in
    process <- subprocess_run E cmd ;;
    if negb (returncode process =? 0)%Z then
      raise (RuntimeError ("Manim rendering failed: " +:+ stderr process))
    else
      video_files <- gets (fun w => rglob render_output_dir format (files w)) ;;
      match video_files with
      | [] => raise (RuntimeError "No video file found after rendering")
      | video_file :: _ =>
          let render_time := (clock_end E - clock_start E)%Q in
          file_size <- stat_size video_file ;;
          let result :=
            [ ("success", JBool true);
              ("request_id", JStr request_id);
              ("video_file_path", JStr video_file);
              ("file_size", JInt file_size);
              ("render_time", JFloat render_time);
              ("quality", JStr quality);
              ("format", JStr format);
              ("scene_name", json_of_opt_str scene_name);
              ("timestamp", JStr (utcnow_isoformat E));
              ("stdout", JStr (stdout process));
              ("stderr", JStr (stderr process)) ] in
          result <-
            (if return_base64 then
               video_data <- read_bytes video_file ;;
               ret (result ++
                      [ ("video_base64", JStr (b64encode video_data));
                        ("video_size_mb",
                          JFloat (Z.of_nat (length video_data) # 1048576)) ])
             else ret result) ;;
          modify (unlink_missing_ok script_file) ;;;
          ret result
      end.

Definition render_script (script_content request_id : string)
    (quality format scene_name : option string) (return_base64 : bool)
    (w : world) : list (string * json) * world :=
  let quality := str_or quality (DEFAULT_QUALITY E) in
  let format := str_or format (DEFAULT_FORMAT E) in
  let '(result, w2) :=
    match render_try script_content request_id quality format scene_name
                     return_base64 w with
    | (inr result, w1) => (result, w1)
    | (inl TimeoutExpired, w1) =>
        (failure_result E
           ("Rendering timeout after " +:+ str_int (MAX_RENDER_TIME E)
              +:+ " seconds") request_id, w1)
    | (inl e, w1) =>
        (failure_result E ("Rendering failed: " +:+ str_exn e) request_id, w1)
    end in
  (* finally *)
  (result, unlink_missing_ok (script_path request_id) w2).

Definition cmd_items (request_id : string) (quality format scene_name : json)
  : list json :=
  [ JStr "manim";
    JStr (script_path request_id);
    JStr "--output_file"; JStr ("video_" +:+ request_id);
    JStr "--media_dir"; JStr (path_join OUTPUT_DIR request_id);
    JStr ("--" +:+ py_str E quality);
    JStr "--format"; format;
    JStr "--disable_caching" ]
    ++ (if truthy scene_name then [scene_name] else []).

(** The body of the [try] block of [render_script], on any values. *)
Definition render_try_json (script_content : json) (request_id : string)
    (quality format scene_name : json) (return_base64 : bool)
  : M (list (string * json)) :=
  let '(is_valid, validation_message) :=
    validate_script_json E script_content in
  if negb is_valid then
    raise (ValueError ("Script validation failed: " +:+ validation_message))
  else
    let script_file := script_path request_id in
    write_script E script_file script_content ;;;
    let render_output_dir := path_join OUTPUT_DIR request_id in
    mkdir_exist_ok render_output_dir ;;;
    cmd <- lift_exn (join_check E 0 (cmd_items request_id quality format
                                               scene_name)) ;;
    process <- subprocess_run E cmd ;;
    if negb (returncode process =? 0)%Z then
      raise (RuntimeError ("Manim rendering failed: " +:+ stderr process))
    else
      video_files <-
        gets (fun w => rglob render_output_dir (py_str E format) (files w)) ;;
      match video_files with
      | [] => raise (RuntimeError "No video file found after rendering")
      | video_file :: _ =>
          let render_time := (clock_end E - clock_start E)%Q in
          file_size <- stat_size video_file ;;
          let result :=
            [ ("success", JBool true);
              ("request_id", JStr request_id);
              ("video_file_path", JStr video_file);
              ("file_size", JInt file_size);
              ("render_time", JFloat render_time);
              ("quality", quality);
              ("format", format);
              ("scene_name", scene_name);
              ("timestamp", JStr (utcnow_isoformat E));
              ("stdout", JStr (stdout process));
              ("stderr", JStr (stderr process)) ] in
          result <-
            (if return_base64 then
               video_data <- read_bytes video_file ;;
               ret (result ++
                      [ ("video_base64", JStr (b64encode video_data));
                        ("video_size_mb",
                          JFloat (Z.of_nat (length video_data) # 1048576)) ])
             else ret result) ;;
          modify (unlink_missing_ok script_file) ;;;
          ret result
      end.

(** [render_script] on any values; nothing is evaluated outside its [try]
    block that could raise. *)
Definition render_script_json (script_content : json) (request_id : string)
    (quality format scene_name : json) (return_base64 : bool) (w : world)
  : list (string * json) * world :=
  let quality := py_or quality (DEFAULT_QUALITY E) in
  let format := py_or format (DEFAULT_FORMAT E) in
  let '(result, w2) :=
    match render_try_json script_content request_id quality format scene_name
                          return_base64 w with
    | (inr result, w1) => (result, w1)
    | (inl TimeoutExpired, w1) =>
        (failure_result E
           ("Rendering timeout after " +:+ str_int (MAX_RENDER_TIME E)
              +:+ " seconds") request_id, w1)
    | (inl e, w1) =>
        (failure_result E ("Rendering failed: " +:+ str_exn e) request_id, w1)
    end in
  (* finally *)
  (result, unlink_missing_ok (script_path request_id) w2).

(** The handler once the body is an object with a truthy [script]:
    [len(script_content)] for the log line, then [render_script]. *)
Definition render_any (script_content : json) (request_id : string)
    (quality format scene_name : json) (return_base64 : bool) (w1 : world)
  : response * world :=
  match script_content with
  | JStr _ | JArr _ | JObj _ =>
      let '(result, w2) :=
        render_script_json script_content request_id quality format scene_name
                           return_base64 w1 in
      if truthy (dict_get result "success" JNull)
      then (Response (JObj result) 200, w2)
      else (Response (JObj result) 500, w2)
  | _ =>
      (internal_error E
         (OtherException
            (interp_error E (NoLen (py_type_name script_content)))), w1)
  end.

(** [POST /render], as in variant A. [return_base64] is only tested for
    truth, so it may be any JSON value. *)
Definition render_video (req : get_json_outcome) (w : world)
  : option (response * world) :=
  let '(request_id, w1) := uuid4 E w in
  match req with
  | GetJsonRaises e => Some (internal_error E e, w1)
  | GetJsonReturns data =>
      if negb (truthy data) then
        Some (Response (JObj [("error", JStr "No JSON data provided")]) 400, w1)
      else
        match data with
        | JObj d =>
            let script_content := dict_get d "script" JNull in
            if negb (truthy script_content) then
              Some (Response (JObj [("error", JStr "No script content provided")])
                             400, w1)
            else
              match script_content,
                    opt_str_field (dict_get d "quality" (JStr (DEFAULT_QUALITY E))),
                    opt_str_field (dict_get d "format" (JStr (DEFAULT_FORMAT E))),
                    opt_str_field (dict_get d "scene_name" JNull) with
              | JStr script, Some quality, Some format, Some scene_name =>
                  let return_base64 :=
                    truthy (dict_get d "return_base64" (JBool false)) in
                  let '(result, w2) :=
                    render_script script request_id quality format scene_name
                                  return_base64 w1 in
                  if truthy (dict_get result "success" JNull)
                  then Some (Response (JObj result) 200, w2)
                  else Some (Response (JObj result) 500, w2)
              | _, _, _, _ =>
                  Some (render_any script_content request_id
                          (dict_get d "quality" (JStr (DEFAULT_QUALITY E)))
                          (dict_get d "format" (JStr (DEFAULT_FORMAT E)))
                          (dict_get d "scene_name" JNull)
                          (truthy (dict_get d "return_base64" (JBool false)))
                          w1)
              end
        | _ =>
            Some (internal_error E
                    (OtherException
                       ("'" +:+ py_type_name data
                          +:+ "' object has no attribute 'get'")), w1)
        end
  end.

(** [GET /status/<request_id>]. *)
Definition get_render_status (request_id : string) (w : world) : response :=
  let attempt : M response :=
    let render_output_dir := path_join OUTPUT_DIR request_id in
    video_files <- gets (fun w => rglob render_output_dir "mp4" (files w)) ;;
    match video_files with
    | video_file :: _ =>
        file_size <- stat_size video_file ;;
        ret (Response
               (JObj [ ("request_id", JStr request_id);
                       ("status", JStr "completed");
                       ("file_size", JInt file_size);
                       ("download_url", JStr ("/download/" +:+ request_id)) ])
               200)
    | [] =>
        ret (Response
               (JObj [ ("request_id", JStr request_id);
                       ("status", JStr "not_found");
                       ("message", JStr "Video file not found") ])
               200)
    end in
  match attempt w with
  | (inr r, _) => r
  | (inl e, _) =>
      Response
        (JObj [ ("request_id", JStr request_id);
                ("status", JStr "error");
                ("error", JStr (str_exn e)) ])
        500
  end.

End WithEnv.
End VariantB.

(** ** Stub tools and environments for concrete runs *)

(** The command-line argument that follows [flag]. *)
Fixpoint arg_after (flag : string) (cmd : list string) : string :=
  match cmd with
  | a :: rest =>
      match rest with
      | b :: _ => if String.eqb a flag then b else arg_after flag rest
      | [] => EmptyString
      end
  | [] => EmptyString
  end.

Definition sample_video : list byte := [x00; x00; x01; xb3; xff].

(** A tool that exits 0 and leaves one video file below the media
    directory, named after the format it was asked for. *)
Definition stub_render (cmd : list string) (fs : gmap string (list byte))
  : proc_outcome :=
  Exited 0 "rendered" EmptyString
    (<[arg_after "--media_dir" cmd +:+ "/videos/video."
         +:+ arg_after "--format" cmd := sample_video]> fs).

Definition stub_fail (cmd : list string) (fs : gmap string (list byte))
  : proc_outcome :=
  Exited 1 EmptyString "NameError: name 'Circl' is not defined" fs.

Definition stub_hang (cmd : list string) (fs : gmap string (list byte))
  : proc_outcome :=
  TimedOut fs.

Definition failing_storage (local_file blob_name : string) : option exn :=
  Some (OtherException "503 POST https://storage.googleapis.com: unavailable").

(** The texts of CPython 3.12 for the faults of the interpreter, and a
    placeholder for the text of floats, lists and dicts. *)
Definition stub_interp_error (f : interp_fault) : string :=
  match f with
  | NoLen t => "object of type '" +:+ t +:+ "' has no len()"
  | Unhashable t => "unhashable type: '" +:+ t +:+ "'"
  | NotIterable t => "argument of type '" +:+ t +:+ "' is not iterable"
  | WriteNotStr t => "write() argument must be str, not " +:+ t
  | JoinNotStr i t =>
      "sequence item " +:+ pretty i +:+ ": expected str instance, " +:+ t
        +:+ " found"
  end.

Definition stub_repr (v : json) : string := "<repr>".

Definition stub_env
    (tool : list string -> gmap string (list byte) -> proc_outcome)
    (storage : option (string -> string -> option exn)) : env :=
  Env "medium_quality" "mp4" 3600 "manim-next-videos" tool storage false
      (fun n => "req-" +:+ pretty n) 0 1 "2024-05-01T12:00:00"
      stub_interp_error stub_repr.

Definition empty_world : world := World ∅ 0 [] [] [].

Definition valid_script : string := "from manim import *
class Demo(Scene): pass".

(** ** The quality table as the specification words it

    "low→l, medium→m, high→h, production→p, 4k→k, unknown defaults to m". *)
Definition spec_quality_table : list (string * string) :=
  [ ("low", "l"); ("medium", "m"); ("high", "h"); ("production", "p");
    ("4k", "k") ].

Fixpoint assoc_default (table : list (string * string)) (key default : string)
  : string :=
  match table with
  | [] => default
  | (k, v) :: table' =>
      if String.eqb k key then v else assoc_default table' key default
  end.

Definition spec_quality_flag (quality : string) : string :=
  assoc_default spec_quality_table quality "m".

(** ** What a tool run leaves on disk *)

(** The file system after [subprocess.run(cmd)] on the file system [fs]: what
    the tool left, or [fs] itself when the tool could not be started. *)
Definition files_after_tool (E : env) (cmd : list string)
    (fs : gmap string (list byte)) : gmap string (list byte) :=
  match manim E cmd fs with
  | Exited _ _ _ fs' => fs'
  | TimedOut fs' => fs'
  | LaunchFailed _ => fs
  end.

(** ** Request and response shapes named by the claims *)

(** A request whose body is missing or empty ([get_json] yields a falsy
    value), or is an object without a non-empty [script]. *)
Definition lacks_script (req : get_json_outcome) : Prop :=
  match req with
  | GetJsonReturns data =>
      truthy data = false \/
      exists d, data = JObj d /\ truthy (dict_get d "script" JNull) = false
  | GetJsonRaises _ => False
  end.

(** The structured render-failure shape: [success] false, with [error],
    [request_id] and [timestamp]. *)
Definition structured_failure (b : json) : Prop :=
  exists fields error_msg request_id timestamp,
    b = JObj fields /\
    dict_lookup fields "success" = Some (JBool false) /\
    dict_lookup fields "error" = Some (JStr error_msg) /\
    dict_lookup fields "request_id" = Some (JStr request_id) /\
    dict_lookup fields "timestamp" = Some (JStr timestamp).

(** The world after one call of [uuid.uuid4] and nothing else. *)
Definition one_uuid_drawn (w : world) : world :=
  World (files w) (S (uuid_count w)) (runs w) (uploads w) (metrics w).

(** A JSON request body with the given fields; an optional field that is
    [None] is left out. *)
Definition opt_field (key : string) (v : option string)
  : list (string * json) :=
  match v with
  | Some s => [(key, JStr s)]
  | None => []
  end.

Definition request_body (script : string)
    (quality format scene_name : option string) : json :=
  JObj (("script", JStr script)
          :: opt_field "quality" quality ++ opt_field "format" format
          ++ opt_field "scene_name" scene_name).

(** ** Variant B: the download endpoint *)

(** What [GET /download/<request_id>] answers: the file handed to
    [send_file], or a JSON reply. *)
Inductive download_response : Type :=
| SentFile (content : list byte) (download_name mimetype : string)
           (as_attachment : bool)
| JsonReply (r : response).

(** [download_video] of [render-com/app.py]. *)
Definition download_video (request_id : string) (w : world)
  : download_response :=
  let attempt : M download_response :=
    let render_output_dir := path_join OUTPUT_DIR request_id in
    video_files <- gets (fun w => rglob render_output_dir "mp4" (files w)) ;;
    match video_files with
    | [] =>
        ret (JsonReply
               (Response (JObj [("error", JStr "Video file not found")]) 404))
    | video_file :: _ =>
        content <- read_bytes video_file ;;
        ret (SentFile content ("manim_video_" +:+ request_id +:+ ".mp4")
                      "video/mp4" true)
    end in
  match attempt w with
  | (inr r, _) => r
  | (inl e, _) =>
      JsonReply
        (Response (JObj [("error", JStr ("Download failed: " +:+ str_exn e))])
                  500)
  end.

(** ** Both variants at once

    Statements that hold for the two variants alike are written once over
    [variant]; each function below only dispatches on it. *)
Inductive variant : Type :=
| CloudStorage   (* [cloud-render/app.py] *)
| DirectReturn.  (* [cloud-render/render-com/app.py] *)

(** The command line [render_script] builds. *)
Definition command (v : variant) (E : env) (request_id : string)
    (quality format scene_name : option string) : list string :=
  match v with
  | CloudStorage =>
      VariantA.build_cmd request_id
        (VariantA.quality_flag (str_or quality (DEFAULT_QUALITY E)))
        (str_or format (DEFAULT_FORMAT E)) scene_name
  | DirectReturn =>
      VariantB.build_cmd request_id (str_or quality (DEFAULT_QUALITY E))
        (str_or format (DEFAULT_FORMAT E)) scene_name
  end.

(** What the tool does when [render_script] starts it: on the command of the
    variant, with the scratch file written. *)
Definition tool_outcome (v : variant) (E : env)
    (script_content request_id : string)
    (quality format scene_name : option string) (w : world) : proc_outcome :=
  manim E (command v E request_id quality format scene_name)
    (<[script_path request_id := list_byte_of_string script_content]>
       (files w)).

Definition render_with (v : variant) (E : env)
    (script_content request_id : string)
    (quality format scene_name : option string) (return_base64 : bool)
    (w : world) : list (string * json) * world :=
  match v with
  | CloudStorage =>
      VariantA.render_script E script_content request_id quality format
                             scene_name w
  | DirectReturn =>
      VariantB.render_script E script_content request_id quality format
                             scene_name return_base64 w
  end.

Definition handle_with (v : variant) (E : env) (req : get_json_outcome)
    (w : world) : option (response * world) :=
  match v with
  | CloudStorage => VariantA.render_video E req w
  | DirectReturn => VariantB.render_video E req w
  end.

(** Two more stub tools: one that cannot be started, one that exits 0 and
    leaves nothing behind. *)
Definition stub_missing (cmd : list string) (fs : gmap string (list byte))
  : proc_outcome :=
  LaunchFailed "[Errno 2] No such file or directory: 'manim'".

Definition stub_silent (cmd : list string) (fs : gmap string (list byte))
  : proc_outcome :=
  Exited 0 EmptyString EmptyString fs.

(** A storage client whose uploads go through, and an environment with a
    monitoring client. *)
Definition working_storage (local_file blob_name : string) : option exn := None.

Definition monitored_env
    (tool : list string -> gmap string (list byte) -> proc_outcome)
    (storage : option (string -> string -> option exn)) : env :=
  Env "medium_quality" "mp4" 3600 "manim-next-videos" tool storage true
      (fun n => "req-" +:+ pretty n) 0 1 "2024-05-01T12:00:00"
      stub_interp_error stub_repr.

(** Whether the upload of [video_file] under [blob_name] goes through: in
    variant A without a client nothing is uploaded, variant B never
    uploads. *)
Definition upload_goes_through (v : variant) (E : env)
    (video_file blob_name : string) : Prop :=
  match v with
  | CloudStorage =>
      match storage_client E with
      | Some client => client video_file blob_name = None
      | None => True
      end
  | DirectReturn => True
  end.

(** The key under which a successful result names the artifact. *)
Definition video_key (v : variant) : string :=
  match v with
  | CloudStorage => "video_file"
  | DirectReturn => "video_file_path"
  end.

(** A request body of variant B that also carries [return_base64]. *)
Definition request_body_inline (script : string)
    (quality format scene_name : option string) (return_base64 : json) : json :=
  JObj (("script", JStr script)
          :: opt_field "quality" quality ++ opt_field "format" format
          ++ opt_field "scene_name" scene_name
          ++ [("return_base64", return_base64)]).

(** The four kinds of answer of [POST /render]. *)
Definition answer_kind (E : env) (w : world) (resp : response) : Prop :=
  (exists e, resp = internal_error E e) \/
  (exists msg, resp = Response (JObj [("error", JStr msg)]) 400) \/
  (exists msg,
     resp
     = Response (JObj (failure_result E msg (uuid4_value E (uuid_count w))))
                500) \/
  (exists result,
     resp = Response (JObj result) 200 /\
     dict_lookup result "success" = Some (JBool true) /\
     dict_lookup result "request_id"
     = Some (JStr (uuid4_value E (uuid_count w)))).

(** ** Where the path and search primitives are those of the code

    [path_join] concatenates, [glob_match] compares the format literally,
    [rglob] lists regular files in the order of the map, and [write_text]
    always succeeds. They are what pathlib and [open] compute when the
    identifier is a single path component other than [.] and [..], the format
    holds no glob metacharacter, no directory has a matching name, and the
    text is one UTF-8 can encode. The statements that depend on it carry
    these conditions, and name a file among those found instead of the first
    of the listing. *)

(** A non-empty identifier without [/] that is neither [.] nor [..], as the
    URL routes and [uuid.uuid4] produce apart from [.] and [..]. *)
Definition plain_identifier (request_id : string) : bool :=
  negb (String.eqb request_id "")
  && negb (String.eqb request_id ".")
  && negb (String.eqb request_id "..")
  && negb (contains "/" request_id).

Fixpoint mentions (chars : list ascii) (s : string) : bool :=
  match s with
  | EmptyString => false
  | String c rest =>
      existsb (Ascii.eqb c) chars || mentions chars rest
  end.

(** A format without the glob metacharacters [*], [?], [[] and without
    [/]: the pattern [*.<format>] then matches exactly the names that end
    with a dot and the format. *)
Definition literal_format (format : string) : bool :=
  negb (mentions ["*"; "?"; "["; "/"]%char format).

(** Python text can hold a lone surrogate, which UTF-8 cannot encode; in the
    byte strings used here it is the three-byte sequence that starts with
    [ED] followed by a byte from [A0] to [BF]. *)
Fixpoint has_surrogate (s : string) : bool :=
  match s with
  | EmptyString => false
  | String a rest =>
      match rest with
      | String b _ =>
          (N_of_ascii a =? 237)%N && (160 <=? N_of_ascii b)%N
          && (N_of_ascii b <=? 191)%N
      | EmptyString => false
      end
      || has_surrogate rest
  end.

Definition utf8_encodable (s : string) : bool := negb (has_surrogate s).

(** The directories of the model are the proper prefixes of the paths in
    [files]. [below_matching_directory] tells whether [path] lies in a
    directory below [dir] whose name ends with a dot and the format: the
    search of the code would list that directory with the files. *)
Definition below_matching_directory (dir format path : string) : bool :=
  match strip_prefix (dir +:+ "/") path with
  | Some rest => contains ("." +:+ format +:+ "/") rest
  | None => false
  end.

Definition no_directory_matches (dir format : string)
    (fs : gmap string (list byte)) : bool :=
  forallb (fun p => negb (below_matching_directory dir format p))
    (map fst (map_to_list fs)).

(** A render that stays within these conditions: its identifier, the
    effective format, the script and the files the tool leaves. *)
Definition render_in_scope (request_id format script_content : string)
    (fs : gmap string (list byte)) : bool :=
  plain_identifier request_id && literal_format format
  && utf8_encodable script_content
  && no_directory_matches (path_join OUTPUT_DIR request_id) format fs.

(** * Properties *)

(** ** Concrete runs of the definitions *)

Example validate_ok :
  validate_script "from manim import *
class Demo(Scene): pass" = (true, "Script validation passed").
Proof. reflexivity. Qed.

Example b64encode_Man :
  b64encode [x4d; x61; x6e] = "TWFu" /\ b64encode [x4d; x61] = "TWE="
  /\ b64encode [x4d] = "TQ==" /\ b64decode "TWE=" = Some [x4d; x61].
Proof. repeat split; reflexivity. Qed.

Example rglob_example :
  rglob "/app/output/r1" "mp4"
    (<["/app/output/r1/videos/video_r1.mp4" := [x00]]>
       (<["/app/output/r2/video_r2.mp4" := [x01]]>
          (<["/app/output/r1/partial.txt" := []]> ∅)))
  = ["/app/output/r1/videos/video_r1.mp4"].
Proof. vm_compute. reflexivity. Qed.

(** ** Substring test *)

Lemma prefix_app (p r : string) : String.prefix p (p +:+ r) = true.
Proof.
  induction p as [|a p IH]; simpl.
  - destruct r; reflexivity.
  - rewrite IH. destruct (ascii_dec a a); [reflexivity | congruence].
Qed.

Lemma prefix_split (p s : string) :
  String.prefix p s = true -> exists r, s = p +:+ r.
Proof.
  revert s. induction p as [|a p IH]; intros s H.
  - exists s. reflexivity.
  - destruct s as [|b s]; simpl in H; [discriminate|].
    destruct (ascii_dec a b) as [->|]; [|discriminate].
    destruct (IH _ H) as [r ->]. exists r. reflexivity.
Qed.

(** [contains] is the substring relation. *)
Lemma contains_spec (needle hay : string) :
  contains needle hay = true <->
  exists pre post, hay = pre +:+ needle +:+ post.
Proof.
  split.
  - induction hay as [|c hay IH]; cbn [contains]; intros H.
    + apply orb_true_iff in H as [H|H]; [|discriminate].
      apply prefix_split in H as [r ->]. exists "", r. reflexivity.
    + apply orb_true_iff in H as [H|H].
      * apply prefix_split in H as [r ->]. exists "", r. reflexivity.
      * destruct (IH H) as (pre & post & ->).
        exists (String c pre), post. reflexivity.
  - intros (pre & post & ->).
    induction pre as [|c pre IH].
    + change (contains needle (needle +:+ post) = true).
      destruct (needle +:+ post) eqn:Heq; cbn [contains];
        rewrite <- Heq, prefix_app; reflexivity.
    + change (contains needle (String c (pre +:+ needle +:+ post)) = true).
      cbn [contains]. rewrite IH. apply orb_true_r.
Qed.

(** ** The denylist scan *)

Lemma scan_dangerous_first (entries : list string) (s : string) (d : string) :
  In d entries -> contains d s = true ->
  exists i d0,
    entries !! i = Some d0 /\ contains d0 s = true /\
    (forall j d', (j < i)%nat -> entries !! j = Some d' ->
                  contains d' s = false) /\
    scan_dangerous entries s = Some d0.
Proof.
  induction entries as [|e entries IH]; intros Hin Hc; [destruct Hin|].
  simpl. destruct (contains e s) eqn:He.
  - exists 0%nat, e. repeat split; auto. intros j d' Hj. lia.
  - destruct Hin as [->|Hin]; [congruence|].
    destruct (IH Hin Hc) as (i & d0 & Hi & Hd0 & Hbefore & Hscan).
    exists (S i), d0. repeat split; auto.
    intros [|j] d' Hj Hl; simpl in Hl.
    + congruence.
    + apply (Hbefore j); [lia | assumption].
Qed.

Lemma scan_dangerous_none (entries : list string) (s : string) :
  scan_dangerous entries s = None <->
  forall d, In d entries -> contains d s = false.
Proof.
  induction entries as [|e entries IH]; simpl.
  - split; [intros _ d [] | reflexivity].
  - destruct (contains e s) eqn:He.
    + split; [discriminate|]. intros H. specialize (H e (or_introl eq_refl)).
      congruence.
    + rewrite IH. split.
      * intros H d [<-|Hd]; auto.
      * intros H d Hd. apply H. right. exact Hd.
Qed.

(** C10: a script with a denylisted substring is rejected with the message
    that names the first entry of the denylist, in its fixed order, that
    occurs in the script, whatever else the script contains; the import and
    Scene checks are never reached. *)
Theorem validate_script_first_dangerous (script_content d : string) :
  In d dangerous_imports -> contains d script_content = true ->
  dangerous_imports
  = [ "subprocess"; "os.system"; "eval"; "exec"; "open";
      "__import__"; "compile"; "globals"; "locals" ] /\
  exists i d0,
    dangerous_imports !! i = Some d0 /\
    contains d0 script_content = true /\
    (forall j d', (j < i)%nat -> dangerous_imports !! j = Some d' ->
                  contains d' script_content = false) /\
    validate_script script_content
      = (false, "Dangerous function/import detected: " +:+ d0).
Proof.
  intros Hin Hc. split; [reflexivity|].
  destruct (scan_dangerous_first _ _ _ Hin Hc) as (i & d0 & Hi & Hd & Hb & Hs).
  exists i, d0. repeat split; auto.
  unfold validate_script. rewrite Hs. reflexivity.
Qed.

(** Two denylisted words, no manim import, no Scene: the message names
    [exec], which comes before [open] in the list. *)
Lemma validate_script_first_dangerous_witness :
  dangerous_imports
  = [ "subprocess"; "os.system"; "eval"; "exec"; "open";
      "__import__"; "compile"; "globals"; "locals" ] /\
  exists i d0,
    dangerous_imports !! i = Some d0 /\
    contains d0 "open(exec)" = true /\
    (forall j d', (j < i)%nat -> dangerous_imports !! j = Some d' ->
                  contains d' "open(exec)" = false) /\
    validate_script "open(exec)"
      = (false, "Dangerous function/import detected: " +:+ d0).
Proof.
  apply (validate_script_first_dangerous "open(exec)" "open").
  - simpl. tauto.
  - reflexivity.
Defined.

Example validate_names_first_entry :
  validate_script "from manim import *
open(exec)" = (false, "Dangerous function/import detected: exec").
Proof. reflexivity. Qed.

(** ** The Scene-class check *)

(** C3 as stated fails: this script passes the denylist and the import
    check and contains [class], yet it is rejected for lacking [Scene]. *)
Lemma scene_check_counterexample :
  let script := "import manim
class Demo: pass" in
  scan_dangerous dangerous_imports script = None /\
  (contains "from manim import" script || contains "import manim" script) = true /\
  contains "class" script = true /\
  validate_script script = (false, "Script must contain a Scene class") /\
  ~ (fst (validate_script script) = false <->
     contains "class" script = false /\ contains "Scene" script = false).
Proof.
  cbv zeta. repeat split; try reflexivity.
  intros [H _]. destruct (H eq_refl) as [Hc _]. vm_compute in Hc. discriminate.
Qed.

(** C3, amended: a script that passes the denylist and the import check is
    rejected exactly when it lacks [class] or lacks [Scene]; it passes this
    check only when it contains both. *)
Theorem validate_script_scene_check (script_content : string) :
  scan_dangerous dangerous_imports script_content = None ->
  (contains "from manim import" script_content
   || contains "import manim" script_content) = true ->
  (validate_script script_content = (false, "Script must contain a Scene class")
   <-> contains "class" script_content = false
       \/ contains "Scene" script_content = false) /\
  (validate_script script_content = (true, "Script validation passed")
   <-> contains "class" script_content = true
       /\ contains "Scene" script_content = true) /\
  (fst (validate_script script_content) = false
   <-> contains "class" script_content = false
       \/ contains "Scene" script_content = false).
Proof.
  intros Hscan Himp. unfold validate_script. rewrite Hscan.
  apply orb_true_iff in Himp.
  assert (negb (contains "from manim import" script_content)
          && negb (contains "import manim" script_content) = false) as ->.
  { destruct Himp as [-> | ->]; simpl; [reflexivity | apply andb_false_r]. }
  destruct (contains "class" script_content), (contains "Scene" script_content);
    simpl; repeat split; intros; try discriminate; try tauto;
    intuition discriminate.
Qed.

Lemma validate_script_scene_check_witness :
  let script := "import manim
class Demo: pass" in
  (validate_script script = (false, "Script must contain a Scene class")
   <-> contains "class" script = false \/ contains "Scene" script = false) /\
  (validate_script script = (true, "Script validation passed")
   <-> contains "class" script = true /\ contains "Scene" script = true) /\
  (fst (validate_script script) = false
   <-> contains "class" script = false \/ contains "Scene" script = false).
Proof.
  apply (validate_script_scene_check "import manim
class Demo: pass"); reflexivity.
Defined.

(** ** Rejected scripts never reach the rendering tool *)

Lemma runs_unlink (p : string) (w : world) :
  runs (unlink_missing_ok p w) = runs w.
Proof. reflexivity. Qed.

Lemma runs_report_metrics (E : env) (t : Q) (n : Z) (b : bool) (w : world) :
  runs (VariantA._report_metrics E t n b w) = runs w.
Proof. unfold VariantA._report_metrics. destruct (monitoring_client E); reflexivity. Qed.

Lemma render_script_A_invalid (E : env) (script_content request_id : string)
    (quality format scene_name : option string) (w : world) (msg : string) :
  validate_script script_content = (false, msg) ->
  VariantA.render_script E script_content request_id quality format scene_name w
  = (failure_result E
       ("Rendering failed: " +:+ ("Script validation failed: " +:+ msg))
       request_id,
     unlink_missing_ok (script_path request_id)
       (VariantA._report_metrics E (clock_end E - clock_start E)%Q 0 false w)).
Proof.
  intros Hv. unfold VariantA.render_script, VariantA.render_try.
  rewrite Hv. reflexivity.
Qed.

Lemma render_script_B_invalid (E : env) (script_content request_id : string)
    (quality format scene_name : option string) (return_base64 : bool)
    (w : world) (msg : string) :
  validate_script script_content = (false, msg) ->
  VariantB.render_script E script_content request_id quality format scene_name
                         return_base64 w
  = (failure_result E
       ("Rendering failed: " +:+ ("Script validation failed: " +:+ msg))
       request_id,
     unlink_missing_ok (script_path request_id) w).
Proof.
  intros Hv. unfold VariantB.render_script, VariantB.render_try.
  rewrite Hv. reflexivity.
Qed.

Lemma eval_is_dangerous (script_content : string) :
  contains "eval" script_content = true ->
  exists d, scan_dangerous dangerous_imports script_content = Some d.
Proof.
  intros H.
  destruct (scan_dangerous_first dangerous_imports script_content "eval")
    as (_ & d0 & _ & _ & _ & Hs); [simpl; tauto | exact H | eauto].
Qed.

(** C7: a script with the substring [eval] anywhere fails validation, and
    [render_script] (either variant) returns a failure result without handing
    any command to [subprocess.run]. *)
Theorem eval_script_never_rendered (E : env) (script_content request_id : string)
    (quality format scene_name : option string) (return_base64 : bool)
    (w : world) :
  (exists pre post, script_content = pre +:+ "eval" +:+ post) ->
  fst (validate_script script_content) = false /\
  (exists msg,
     fst (VariantA.render_script E script_content request_id quality format
                                 scene_name w)
     = failure_result E msg request_id) /\
  runs (snd (VariantA.render_script E script_content request_id quality format
                                    scene_name w)) = runs w /\
  (exists msg,
     fst (VariantB.render_script E script_content request_id quality format
                                 scene_name return_base64 w)
     = failure_result E msg request_id) /\
  runs (snd (VariantB.render_script E script_content request_id quality format
                                    scene_name return_base64 w)) = runs w.
Proof.
  intros Hsub. apply contains_spec in Hsub.
  destruct (eval_is_dangerous _ Hsub) as [d Hd].
  assert (Hv : validate_script script_content
               = (false, "Dangerous function/import detected: " +:+ d)).
  { unfold validate_script. rewrite Hd. reflexivity. }
  rewrite (render_script_A_invalid _ _ _ _ _ _ _ _ Hv).
  rewrite (render_script_B_invalid _ _ _ _ _ _ _ _ _ Hv).
  rewrite Hv. simpl fst. simpl snd.
  rewrite runs_unlink, runs_report_metrics.
  repeat split; eauto.
Qed.

(** ** Base64 round trip *)

Lemma b64_table_check :
  forallb (fun k => match b64_index (b64_char (N.of_nat k)) with
                    | Some j => N.eqb j (N.of_nat k) && negb (Ascii.eqb (b64_char (N.of_nat k)) b64_pad)
                    | None => false
                    end) (seq 0 64) = true.
Proof. vm_compute. reflexivity. Qed.

Lemma b64_index_char (i : N) :
  (i < 64)%N -> b64_index (b64_char i) = Some i /\ Ascii.eqb (b64_char i) b64_pad = false.
Proof.
  intros Hi. pose proof b64_table_check as H.
  rewrite forallb_forall in H. specialize (H (N.to_nat i)).
  rewrite N2Nat.id in H.
  destruct (b64_index (b64_char i)) as [j|].
  - assert (Hin : In (N.to_nat i) (seq 0 64)) by (apply in_seq; lia).
    apply H in Hin. apply andb_true_iff in Hin as [Hj Hp].
    apply N.eqb_eq in Hj. subst j. split; [reflexivity|].
    destruct (Ascii.eqb (b64_char i) b64_pad); [discriminate | reflexivity].
  - assert (Hin : In (N.to_nat i) (seq 0 64)) by (apply in_seq; lia).
    apply H in Hin. discriminate.
Qed.

Lemma sextet_lt (g k : N) : (sextet g k < 64)%N.
Proof. unfold sextet. apply N.mod_lt. discriminate. Qed.

Lemma octet_of_N (n : N) (b : byte) :
  n = Byte.to_N b ->
  match Byte.of_N n with Some b' => b' | None => x00 end = b.
Proof. intros ->. rewrite Byte.of_to_N. reflexivity. Qed.

Ltac group_arith :=
  unfold group_of_sextets, sextet, group_of_bytes;
  change (Byte.to_N x00) with 0%N;
  repeat match goal with
  | |- context [ (2 ^ ?e)%N ] =>
      let v := eval vm_compute in (2 ^ e)%N in change (2 ^ e)%N with v
  end;
  repeat match goal with
  | b : byte |- _ =>
      let H := fresh in
      pose proof (Byte.to_N_bounded b) as H;
      generalize dependent (Byte.to_N b); clear b; intros
  end;
  zify; Z.to_euclidean_division_equations; lia.

Lemma octets_of_full_group (a b c : byte) :
  let g := group_of_bytes a b c in
  let g' := group_of_sextets (sextet g 0) (sextet g 1) (sextet g 2) (sextet g 3) in
  octet g' 0 = a /\ octet g' 1 = b /\ octet g' 2 = c.
Proof.
  cbv zeta. unfold octet. repeat split; apply octet_of_N; group_arith.
Qed.

Lemma octets_of_two_bytes (a b : byte) :
  let g := group_of_bytes a b x00 in
  let g' := group_of_sextets (sextet g 0) (sextet g 1) (sextet g 2) 0 in
  octet g' 0 = a /\ octet g' 1 = b.
Proof.
  cbv zeta. unfold octet. repeat split; apply octet_of_N; group_arith.
Qed.

Lemma octets_of_one_byte (a : byte) :
  let g := group_of_bytes a x00 x00 in
  octet (group_of_sextets (sextet g 0) (sextet g 1) 0 0) 0 = a.
Proof.
  cbv zeta. unfold octet. apply octet_of_N; group_arith.
Qed.

(** Induction on byte lists three bytes at a time, the way [b64encode]
    consumes them. *)
Lemma list_ind3 {A} (P : list A -> Prop) :
  P [] -> (forall a, P [a]) -> (forall a b, P [a; b]) ->
  (forall a b c rest, P rest -> P (a :: b :: c :: rest)) ->
  forall l, P l.
Proof.
  intros H0 H1 H2 H3.
  fix IH 1.
  intros [|a [|b [|c rest]]];
    [exact H0 | apply H1 | apply H2 | apply H3; apply IH].
Qed.

Lemma b64decode_b64encode (data : list byte) :
  b64decode (b64encode data) = Some data.
Proof.
  induction data as [|a|a b|a b c rest IH] using list_ind3.
  - reflexivity.
  - cbn [b64encode b64decode].
    set (g := group_of_bytes a x00 x00).
    destruct (b64_index_char (sextet g 0) (sextet_lt _ _)) as [-> _].
    destruct (b64_index_char (sextet g 1) (sextet_lt _ _)) as [-> _].
    rewrite Ascii.eqb_refl. subst g. rewrite octets_of_one_byte. reflexivity.
  - cbn [b64encode b64decode].
    set (g := group_of_bytes a b x00).
    destruct (b64_index_char (sextet g 0) (sextet_lt _ _)) as [-> _].
    destruct (b64_index_char (sextet g 1) (sextet_lt _ _)) as [-> _].
    destruct (b64_index_char (sextet g 2) (sextet_lt _ _)) as [-> ->].
    rewrite Ascii.eqb_refl. subst g.
    destruct (octets_of_two_bytes a b) as [-> ->]. reflexivity.
  - cbn [b64encode b64decode].
    set (g := group_of_bytes a b c).
    destruct (b64_index_char (sextet g 0) (sextet_lt _ _)) as [-> _].
    destruct (b64_index_char (sextet g 1) (sextet_lt _ _)) as [-> _].
    destruct (b64_index_char (sextet g 2) (sextet_lt _ _)) as [-> _].
    destruct (b64_index_char (sextet g 3) (sextet_lt _ _)) as [-> ->].
    rewrite IH. subst g.
    destruct (octets_of_full_group a b c) as (-> & -> & ->). reflexivity.
Qed.

Lemma eval_script_never_rendered_witness :
  fst (validate_script "x = eval(1)") = false /\
  (exists msg,
     fst (VariantA.render_script (stub_env stub_render None) "x = eval(1)"
            "req-0" None None None empty_world)
     = failure_result (stub_env stub_render None) msg "req-0") /\
  runs (snd (VariantA.render_script (stub_env stub_render None) "x = eval(1)"
               "req-0" None None None empty_world)) = runs empty_world /\
  (exists msg,
     fst (VariantB.render_script (stub_env stub_render None) "x = eval(1)"
            "req-0" None None None true empty_world)
     = failure_result (stub_env stub_render None) msg "req-0") /\
  runs (snd (VariantB.render_script (stub_env stub_render None) "x = eval(1)"
               "req-0" None None None true empty_world)) = runs empty_world.
Proof.
  apply (eval_script_never_rendered (stub_env stub_render None) "x = eval(1)"
           "req-0" None None None true empty_world).
  exists "x = ", "(1)". reflexivity.
Defined.

(** ** The command line handed to the rendering tool *)

(** Unfolds the monadic body of a render and splits on every outcome of the
    environment. *)
Ltac render_cases :=
  unfold bind, write_text, mkdir_exist_ok, modify, gets, ret, raise,
    subprocess_run, stat_size, read_bytes, VariantA._upload_to_gcs;
  cbn [files runs uploads metrics uuid_count set_files fst snd];
  repeat match goal with
  | |- context [match manim ?E ?cmd ?fs with _ => _ end] =>
      destruct (manim E cmd fs) eqn:?;
      cbn [files runs uploads metrics uuid_count set_files fst snd
           returncode stdout stderr]
  | |- context [if negb (?rc =? 0)%Z then _ else _] =>
      destruct (rc =? 0)%Z eqn:?;
      cbn [negb files runs uploads metrics uuid_count set_files fst snd]
  | |- context [match rglob ?d ?f ?fs with _ => _ end] =>
      destruct (rglob d f fs) eqn:?;
      cbn [files runs uploads metrics uuid_count set_files fst snd]
  | |- context [match storage_client ?E with _ => _ end] =>
      destruct (storage_client E) eqn:?;
      cbn [files runs uploads metrics uuid_count set_files fst snd]
  | |- context [match ?client ?a ?b with Some _ => _ | None => _ end] =>
      destruct (client a b) eqn:?;
      cbn [files runs uploads metrics uuid_count set_files fst snd]
  | |- context [match @lookup _ _ _ _ ?k ?m with _ => _ end] =>
      destruct (@lookup _ _ _ _ k m) eqn:?;
      cbn [files runs uploads metrics uuid_count set_files fst snd]
  | |- context [match ?e with TimeoutExpired => _ | _ => _ end] =>
      destruct e;
      cbn [files runs uploads metrics uuid_count set_files fst snd]
  | |- context [if ?b then _ else _] =>
      is_var b; destruct b;
      cbn [files runs uploads metrics uuid_count set_files fst snd]
  end.

Lemma render_script_A_runs (E : env) (script_content request_id : string)
    (quality format scene_name : option string) (w : world) :
  fst (validate_script script_content) = true ->
  runs (snd (VariantA.render_script E script_content request_id quality format
                                    scene_name w))
  = VariantA.build_cmd request_id
      (VariantA.quality_flag (str_or quality (DEFAULT_QUALITY E)))
      (str_or format (DEFAULT_FORMAT E)) scene_name :: runs w.
Proof.
  intros Hv. unfold VariantA.render_script, VariantA.render_try.
  destruct (validate_script script_content) as [v m]. simpl in Hv. subst v.
  cbn [negb]. render_cases;
    rewrite ?runs_unlink, ?runs_report_metrics; reflexivity.
Qed.

Lemma render_script_B_runs (E : env) (script_content request_id : string)
    (quality format scene_name : option string) (return_base64 : bool)
    (w : world) :
  fst (validate_script script_content) = true ->
  runs (snd (VariantB.render_script E script_content request_id quality format
                                    scene_name return_base64 w))
  = VariantB.build_cmd request_id (str_or quality (DEFAULT_QUALITY E))
      (str_or format (DEFAULT_FORMAT E)) scene_name :: runs w.
Proof.
  intros Hv. unfold VariantB.render_script, VariantB.render_try.
  destruct (validate_script script_content) as [v m]. simpl in Hv. subst v.
  cbn [negb]. render_cases;
    rewrite ?runs_unlink; reflexivity.
Qed.


Lemma quality_flag_default (quality : string) :
  quality <> "low_quality" -> quality <> "medium_quality" ->
  quality <> "high_quality" -> quality <> "production_quality" ->
  quality <> "4k_quality" ->
  VariantA.quality_flag quality = "m".
Proof.
  intros H1 H2 H3 H4 H5.
  unfold VariantA.quality_flag, VariantA.quality_mapping.
  rewrite !lookup_insert_ne by congruence.
  rewrite lookup_empty. reflexivity.
Qed.



(** ** Cleanup of the scratch script file *)

Lemma files_report_metrics (E : env) (t : Q) (n : Z) (b : bool) (w : world) :
  files (VariantA._report_metrics E t n b w) = files w.
Proof.
  unfold VariantA._report_metrics. destruct (monitoring_client E); reflexivity.
Qed.

(** All that [render_script] itself does to the file system, on every path:
    what remains is what the tool left (or the initial files when the tool
    was never started), minus the scratch file. *)
Lemma render_script_A_files (E : env) (script_content request_id : string)
    (quality format scene_name : option string) (w : world) :
  files (snd (VariantA.render_script E script_content request_id quality format
                                     scene_name w))
  = delete (script_path request_id)
      (if fst (validate_script script_content) then
         files_after_tool E
           (VariantA.build_cmd request_id
              (VariantA.quality_flag (str_or quality (DEFAULT_QUALITY E)))
              (str_or format (DEFAULT_FORMAT E)) scene_name)
           (<[script_path request_id := list_byte_of_string script_content]>
              (files w))
       else files w).
Proof.
  unfold VariantA.render_script, VariantA.render_try, files_after_tool.
  destruct (validate_script script_content) as [[|] m]; cbn [negb fst].
  - render_cases;
      unfold unlink_missing_ok;
      cbn [files set_files];
      rewrite ?files_report_metrics; cbn [files set_files];
      rewrite ?delete_delete_eq; reflexivity.
  - unfold raise. cbn [snd]. unfold unlink_missing_ok. cbn [files set_files].
    rewrite files_report_metrics. reflexivity.
Qed.

Lemma render_script_B_files (E : env) (script_content request_id : string)
    (quality format scene_name : option string) (return_base64 : bool)
    (w : world) :
  files (snd (VariantB.render_script E script_content request_id quality format
                                     scene_name return_base64 w))
  = delete (script_path request_id)
      (if fst (validate_script script_content) then
         files_after_tool E
           (VariantB.build_cmd request_id (str_or quality (DEFAULT_QUALITY E))
              (str_or format (DEFAULT_FORMAT E)) scene_name)
           (<[script_path request_id := list_byte_of_string script_content]>
              (files w))
       else files w).
Proof.
  unfold VariantB.render_script, VariantB.render_try, files_after_tool.
  destruct (validate_script script_content) as [[|] m]; cbn [negb fst].
  - render_cases;
      unfold unlink_missing_ok;
      cbn [files set_files];
      rewrite ?delete_delete_eq; reflexivity.
  - reflexivity.
Qed.

(** For a request identifier that is not an absolute path, no path below the
    request's output directory is the scratch file. *)
Lemma output_path_not_script (request_id rest : string) :
  String.prefix "/" request_id = false ->
  path_join OUTPUT_DIR request_id +:+ "/" +:+ rest <> script_path request_id.
Proof.
  intros Habs. unfold script_path, path_join at 2, TEMP_DIR.
  cbn [String.append String.eqb Ascii.eqb String.prefix].
  unfold path_join, OUTPUT_DIR. rewrite Habs.
  destruct (String.eqb request_id ""); cbn; intros H; discriminate H.
Qed.


(** A timed-out render and a successful one: the scratch file is gone, the
    artifact of the successful run is still there. *)
Example cleanup_concrete_runs :
  files (snd (VariantB.render_script (stub_env stub_hang None) valid_script
                "req-0" None None None false empty_world))
    !! script_path "req-0" = None /\
  files (snd (VariantA.render_script (stub_env stub_render None) valid_script
                "req-0" None None None empty_world))
  = {[ "/app/output/req-0/videos/video.mp4" := sample_video ]}.
Proof. split; vm_compute; reflexivity. Qed.


(** ** Inline video data *)

(** C8: when a variant-B render with [return_base64] set succeeds, the
    [video_base64] field decodes to exactly the bytes of the artifact file
    named by [video_file_path], and [file_size] is the number of those
    bytes. The artifact is read as the tool left it, and it is still there
    after the call unless it is the scratch file itself. *)
Theorem inline_video_roundtrip (E : env) (script_content request_id : string)
    (quality format scene_name : option string) (w : world) :
  let r := VariantB.render_script E script_content request_id quality format
             scene_name true w in
  dict_lookup (fst r) "success" = Some (JBool true) ->
  exists video_file video_data text,
    dict_lookup (fst r) "video_file_path" = Some (JStr video_file) /\
    files_after_tool E
      (VariantB.build_cmd request_id (str_or quality (DEFAULT_QUALITY E))
         (str_or format (DEFAULT_FORMAT E)) scene_name)
      (<[script_path request_id := list_byte_of_string script_content]>
         (files w)) !! video_file = Some video_data /\
    (video_file <> script_path request_id ->
     files (snd r) !! video_file = Some video_data) /\
    dict_lookup (fst r) "video_base64" = Some (JStr text) /\
    b64decode text = Some video_data /\
    dict_lookup (fst r) "file_size"
      = Some (JInt (Z.of_nat (length video_data))).
Proof.
  cbv zeta.
  unfold VariantB.render_script, VariantB.render_try, files_after_tool.
  destruct (validate_script script_content) as [[|] m]; cbn [negb];
    [|intros H; vm_compute in H; discriminate].
  render_cases; cbn [fst snd]; intros Hs;
    try (cbn in Hs; discriminate Hs).
  repeat match goal with
  | H : Some _ = Some _ |- _ => injection H as ->
  end.
  match goal with
  | Hl : _ !! ?p = Some ?data |- _ =>
      exists p, data, (b64encode data);
      split; [reflexivity|];
      split; [exact Hl|];
      split; [|split; [reflexivity|];
               split; [apply b64decode_b64encode | reflexivity]];
      intros Hne; unfold unlink_missing_ok; cbn [files set_files];
      rewrite !lookup_delete_ne by congruence; exact Hl
  end.
Qed.

Lemma inline_video_roundtrip_witness :
  let r := VariantB.render_script (stub_env stub_render None) valid_script
             "req-0" None None None true empty_world in
  exists video_file video_data text,
    dict_lookup (fst r) "video_file_path" = Some (JStr video_file) /\
    files_after_tool (stub_env stub_render None)
      (VariantB.build_cmd "req-0"
         (str_or None (DEFAULT_QUALITY (stub_env stub_render None)))
         (str_or None (DEFAULT_FORMAT (stub_env stub_render None))) None)
      (<[script_path "req-0" := list_byte_of_string valid_script]>
         (files empty_world)) !! video_file = Some video_data /\
    (video_file <> script_path "req-0" ->
     files (snd r) !! video_file = Some video_data) /\
    dict_lookup (fst r) "video_base64" = Some (JStr text) /\
    b64decode text = Some video_data /\
    dict_lookup (fst r) "file_size"
      = Some (JInt (Z.of_nat (length video_data))).
Proof.
  apply (inline_video_roundtrip (stub_env stub_render None) valid_script
           "req-0" None None None empty_world).
  vm_compute. reflexivity.
Defined.

Example inline_video_run :
  dict_lookup
    (fst (VariantB.render_script (stub_env stub_render None) valid_script
            "req-0" None None None true empty_world)) "video_base64"
  = Some (JStr "AAABs/8=").
Proof. vm_compute. reflexivity. Qed.

(** ** The status endpoint of variant B *)

Lemma rglob_is_file (dir format : string) (fs : gmap string (list byte))
    (p : string) :
  p ∈ rglob dir format fs -> exists data, fs !! p = Some data.
Proof.
  unfold rglob. intros H.
  apply list_elem_of_filter in H as [_ H].
  apply list_elem_of_In, in_map_iff in H as ([q data] & <- & H).
  apply list_elem_of_In, elem_of_map_to_list in H. eauto.
Qed.

Lemma append_assoc (a b c : string) : (a +:+ b) +:+ c = a +:+ (b +:+ c).
Proof.
  induction a as [|x a IH]; [reflexivity|].
  change (String x ((a +:+ b) +:+ c) = String x (a +:+ (b +:+ c))).
  rewrite IH. reflexivity.
Qed.

Lemma strip_prefix_spec (p s r : string) :
  strip_prefix p s = Some r <-> s = p +:+ r.
Proof.
  revert s. induction p as [|a p IH]; intros s; cbn.
  - split; [intros [= ->]; reflexivity | intros ->; reflexivity].
  - destruct s as [|b s]; [split; discriminate|].
    destruct (Ascii.eqb a b) eqn:Hab.
    + apply Ascii.eqb_eq in Hab. subst b. rewrite IH.
      split; [intros ->; reflexivity | intros [= ->]; reflexivity].
    + apply Ascii.eqb_neq in Hab. split; [discriminate|].
      intros [= <- _]. congruence.
Qed.

Lemma ends_with_spec (suf s : string) :
  ends_with suf s = true <-> exists stem, s = stem +:+ suf.
Proof.
  split.
  - induction s as [|c s IH]; cbn [ends_with]; intros H;
      apply orb_true_iff in H as [H|H]; try discriminate.
    + apply String.eqb_eq in H. subst suf. exists "". reflexivity.
    + apply String.eqb_eq in H. subst suf. exists "". reflexivity.
    + destruct (IH H) as [stem ->]. exists (String c stem). reflexivity.
  - intros [stem ->]. induction stem as [|c stem IH].
    + change ("" +:+ suf) with suf.
      destruct suf; cbn [ends_with]; rewrite String.eqb_refl; reflexivity.
    + change (String c stem +:+ suf) with (String c (stem +:+ suf)).
      cbn [ends_with]. rewrite IH. apply orb_true_r.
Qed.

Lemma rglob_elem (dir format : string) (fs : gmap string (list byte))
    (p : string) :
  p ∈ rglob dir format fs <->
  glob_match dir format p = true /\ exists data, fs !! p = Some data.
Proof.
  unfold rglob. rewrite list_elem_of_filter, list_elem_of_In, in_map_iff.
  split.
  - intros [Hm ([q data] & <- & Hin)]. split; [exact Hm|].
    apply list_elem_of_In, elem_of_map_to_list in Hin. eauto.
  - intros [Hm [data Hd]]. split; [exact Hm|].
    exists (p, data). split; [reflexivity|].
    apply list_elem_of_In, elem_of_map_to_list. exact Hd.
Qed.

(** The files the search finds, spelled out: [dir/<stem>.<format>] for some
    stem, which may run through subdirectories. *)
Lemma rglob_literal (dir format : string) (fs : gmap string (list byte))
    (p : string) :
  p ∈ rglob dir format fs <->
  exists stem data,
    p = dir +:+ "/" +:+ stem +:+ "." +:+ format /\ fs !! p = Some data.
Proof.
  rewrite rglob_elem. unfold glob_match. split.
  - intros [Hm [data Hd]].
    destruct (strip_prefix (dir +:+ "/") p) as [tail|] eqn:Hs; [|discriminate].
    apply strip_prefix_spec in Hs. apply ends_with_spec in Hm as [stem ->].
    rewrite append_assoc in Hs. eauto.
  - intros (stem & data & -> & Hd). split; [|eauto].
    rewrite <- append_assoc.
    assert (Hs : strip_prefix (dir +:+ "/")
                   ((dir +:+ "/") +:+ stem +:+ "." +:+ format)
                 = Some (stem +:+ "." +:+ format))
      by (apply strip_prefix_spec; reflexivity).
    rewrite Hs. apply ends_with_spec. eauto.
Qed.

Lemma rglob_found (dir format : string) (fs : gmap string (list byte)) :
  (exists stem data,
     fs !! (dir +:+ "/" +:+ stem +:+ "." +:+ format) = Some data) ->
  exists p rest, rglob dir format fs = p :: rest.
Proof.
  intros (stem & data & Hd).
  assert (Hin : dir +:+ "/" +:+ stem +:+ "." +:+ format ∈ rglob dir format fs)
    by (apply rglob_literal; eauto).
  destruct (rglob dir format fs) as [|p rest]; [inversion Hin | eauto].
Qed.

Lemma rglob_none (dir format : string) (fs : gmap string (list byte)) :
  (forall stem data,
     fs !! (dir +:+ "/" +:+ stem +:+ "." +:+ format) = Some data -> False) ->
  rglob dir format fs = [].
Proof.
  intros Hnone. destruct (rglob dir format fs) as [|p rest] eqn:Hg;
    [reflexivity|].
  exfalso.
  assert (Hin : p ∈ rglob dir format fs) by (rewrite Hg; left).
  apply rglob_literal in Hin as (stem & data & -> & Hd).
  exact (Hnone stem data Hd).
Qed.

Lemma rglob_head (dir format : string) (fs : gmap string (list byte))
    (p : string) (rest : list string) :
  rglob dir format fs = p :: rest ->
  exists stem data,
    p = dir +:+ "/" +:+ stem +:+ "." +:+ format /\ fs !! p = Some data.
Proof.
  intros Hg. apply rglob_literal. rewrite Hg. left.
Qed.


Lemma plain_identifier_dir (request_id : string) :
  plain_identifier request_id = true ->
  path_join OUTPUT_DIR request_id = "/app/output/" +:+ request_id.
Proof.
  unfold plain_identifier. intros H.
  apply andb_true_iff in H as [H Hslash].
  apply andb_true_iff in H as [H _]. apply andb_true_iff in H as [Hne _].
  unfold path_join.
  destruct (String.eqb request_id ""); [discriminate|].
  destruct request_id as [|c rest]; [reflexivity|].
  cbn [contains] in Hslash.
  destruct (String.prefix "/" (String c rest)); [discriminate | reflexivity].
Qed.

Lemma render_scope_dir (request_id format script_content : string)
    (fs : gmap string (list byte)) :
  render_in_scope request_id format script_content fs = true ->
  path_join OUTPUT_DIR request_id = "/app/output/" +:+ request_id.
Proof.
  unfold render_in_scope. intros H.
  apply andb_true_iff in H as [H _]. apply andb_true_iff in H as [H _].
  apply andb_true_iff in H as [H _]. apply plain_identifier_dir, H.
Qed.



Example status_after_mp4_render :
  VariantB.get_render_status "req-0"
    (snd (VariantB.render_script (stub_env stub_render None) valid_script
            "req-0" None None None false empty_world))
  = Response
      (JObj [ ("request_id", JStr "req-0");
              ("status", JStr "completed");
              ("file_size", JInt 5);
              ("download_url", JStr "/download/req-0") ])
      200.
Proof. vm_compute. reflexivity. Qed.

(** ** Requests without a script *)

(** C2 as stated fails: on a request without a body the handler answers 400,
    but it has already drawn a request identifier. *)
Lemma no_script_counterexample :
  let E := stub_env stub_render None in
  lacks_script (GetJsonReturns JNull) /\
  exists resp w',
    VariantA.render_video E (GetJsonReturns JNull) empty_world
    = Some (resp, w') /\
    VariantB.render_video E (GetJsonReturns JNull) empty_world
    = Some (resp, w') /\
    status resp = 400%Z /\
    uuid_count w' = 1%nat /\
    uuid_count w' <> uuid_count empty_world.
Proof.
  split; [left; reflexivity|].
  eexists _, _. repeat split; try reflexivity. discriminate.
Qed.

(** C2, amended: for every request whose body is missing or empty, or is an
    object without a non-empty [script], the handler (either variant)
    answers HTTP 400 with a payload that holds only an [error] message. A
    request identifier has been generated at the entry of the handler, but it
    is not used: apart from that one draw the world is unchanged, so no file
    is written, no command is run, nothing is uploaded or reported. *)
Theorem no_script_bad_request (E : env) (req : get_json_outcome) (w : world) :
  lacks_script req ->
  exists msg,
    VariantA.render_video E req w
    = Some (Response (JObj [("error", JStr msg)]) 400, one_uuid_drawn w) /\
    VariantB.render_video E req w
    = Some (Response (JObj [("error", JStr msg)]) 400, one_uuid_drawn w).
Proof.
  destruct req as [e|data]; [intros []|].
  unfold lacks_script, VariantA.render_video, VariantB.render_video, uuid4.
  intros [Hf | (d & -> & Hs)].
  - rewrite Hf. cbn [negb]. eexists. split; reflexivity.
  - destruct (truthy (JObj d)); cbn [negb].
    + rewrite Hs. cbn [negb]. eexists. split; reflexivity.
    + eexists. split; reflexivity.
Qed.

Lemma no_script_bad_request_witness :
  exists msg,
    VariantA.render_video (stub_env stub_render None)
      (GetJsonReturns (JObj [("quality", JStr "high_quality");
                             ("script", JStr "")])) empty_world
    = Some (Response (JObj [("error", JStr msg)]) 400,
            one_uuid_drawn empty_world) /\
    VariantB.render_video (stub_env stub_render None)
      (GetJsonReturns (JObj [("quality", JStr "high_quality");
                             ("script", JStr "")])) empty_world
    = Some (Response (JObj [("error", JStr msg)]) 400,
            one_uuid_drawn empty_world).
Proof.
  apply (no_script_bad_request (stub_env stub_render None)
           (GetJsonReturns (JObj [("quality", JStr "high_quality");
                                  ("script", JStr "")])) empty_world).
  right. eexists. split; reflexivity.
Defined.

(** ** Shapes of results and responses *)

Lemma failure_result_structured (E : env) (msg request_id : string) :
  structured_failure (JObj (failure_result E msg request_id)).
Proof.
  exists (failure_result E msg request_id), msg, request_id, (utcnow_isoformat E).
  repeat split; reflexivity.
Qed.

(** [render_script] returns either the failure dictionary or a dictionary
    whose [success] is true; it never raises. *)
Lemma render_script_A_result (E : env) (script_content request_id : string)
    (quality format scene_name : option string) (w : world) :
  (exists msg,
     fst (VariantA.render_script E script_content request_id quality format
                                 scene_name w)
     = failure_result E msg request_id) \/
  dict_lookup
    (fst (VariantA.render_script E script_content request_id quality format
                                 scene_name w)) "success"
  = Some (JBool true).
Proof.
  unfold VariantA.render_script, VariantA.render_try.
  destruct (validate_script script_content) as [[|] m]; cbn [negb].
  - render_cases; cbn [fst]; (left; eexists; reflexivity) || (right; reflexivity).
  - left. eexists. reflexivity.
Qed.

Lemma render_script_B_result (E : env) (script_content request_id : string)
    (quality format scene_name : option string) (return_base64 : bool)
    (w : world) :
  (exists msg,
     fst (VariantB.render_script E script_content request_id quality format
                                 scene_name return_base64 w)
     = failure_result E msg request_id) \/
  dict_lookup
    (fst (VariantB.render_script E script_content request_id quality format
                                 scene_name return_base64 w)) "success"
  = Some (JBool true).
Proof.
  unfold VariantB.render_script, VariantB.render_try.
  destruct (validate_script script_content) as [[|] m]; cbn [negb].
  - render_cases; cbn [fst]; (left; eexists; reflexivity) || (right; reflexivity).
  - left. eexists. reflexivity.
Qed.

(** Splits a render on values of any type on every outcome. *)
Ltac json_cases :=
  unfold write_script, lift_exn, bind, write_text, mkdir_exist_ok, modify,
    gets, ret, raise;
  cbn [files runs uploads metrics uuid_count set_files fst snd];
  repeat match goal with
  | |- context [match join_check ?E ?i ?l with _ => _ end] =>
      destruct (join_check E i l) eqn:?;
      cbn [files runs uploads metrics uuid_count set_files fst snd]
  end;
  render_cases.

Ltac after_render :=
  cbn [fst snd]; unfold unlink_missing_ok, VariantA._report_metrics;
  try match goal with
  | |- context [monitoring_client ?E] => destruct (monitoring_client E)
  end;
  cbn [uuid_count set_files].

(** What [render_script] returns on values of any type: in variant A an
    unhashable quality raises and leaves the world as it was; otherwise the
    result is the failure dictionary or has [success] true, it carries the
    identifier, and no identifier is drawn. *)
Lemma render_script_json_A_result (E : env) (script_content : json)
    (request_id : string) (quality format scene_name : json) (w : world) :
  match VariantA.render_script_json E script_content request_id quality format
                                    scene_name w with
  | (inl e, w') => w' = w
  | (inr result, w') =>
      uuid_count w' = uuid_count w /\
      dict_lookup result "request_id" = Some (JStr request_id) /\
      ((exists msg, result = failure_result E msg request_id) \/
       dict_lookup result "success" = Some (JBool true))
  end.
Proof.
  unfold VariantA.render_script_json.
  destruct (VariantA.quality_flag_json E (py_or quality (DEFAULT_QUALITY E)))
    as [e|flag]; [reflexivity|].
  unfold VariantA.render_try_json.
  destruct (validate_script_json E script_content) as [[|] msg]; cbn [negb].
  - destruct script_content; json_cases; after_render;
      (split; [reflexivity|]); (split; [reflexivity|]);
      first [left; eexists; reflexivity | right; reflexivity].
  - unfold raise. after_render.
    all: (split; [reflexivity|]); (split; [reflexivity|]);
      left; eexists; reflexivity.
Qed.

Lemma render_script_json_B_result (E : env) (script_content : json)
    (request_id : string) (quality format scene_name : json)
    (return_base64 : bool) (w : world) :
  let r := VariantB.render_script_json E script_content request_id quality
             format scene_name return_base64 w in
  uuid_count (snd r) = uuid_count w /\
  dict_lookup (fst r) "request_id" = Some (JStr request_id) /\
  ((exists msg, fst r = failure_result E msg request_id) \/
   dict_lookup (fst r) "success" = Some (JBool true)).
Proof.
  cbv zeta. unfold VariantB.render_script_json, VariantB.render_try_json.
  destruct (validate_script_json E script_content) as [[|] msg]; cbn [negb].
  - destruct script_content; json_cases; after_render;
      (split; [reflexivity|]); (split; [reflexivity|]);
      first [left; eexists; reflexivity | right; reflexivity].
  - unfold raise. after_render.
    (split; [reflexivity|]); (split; [reflexivity|]).
    left; eexists; reflexivity.
Qed.

(** What the handler answers once the body is an object with a truthy
    script, whatever the types of the fields. *)
Lemma render_any_A_shape (E : env) (script_content : json)
    (quality format scene_name : json) (w : world) :
  let rid := uuid4_value E (uuid_count w) in
  let a := VariantA.render_any E script_content rid quality format scene_name
             (one_uuid_drawn w) in
  uuid_count (snd a) = S (uuid_count w) /\
  ((exists e, fst a = internal_error E e) \/
   (exists msg, fst a = Response (JObj (failure_result E msg rid)) 500) \/
   (exists result,
      fst a = Response (JObj result) 200 /\
      dict_lookup result "success" = Some (JBool true) /\
      dict_lookup result "request_id" = Some (JStr rid))).
Proof.
  cbv zeta. unfold VariantA.render_any.
  pose proof (render_script_json_A_result E script_content
                (uuid4_value E (uuid_count w)) quality format scene_name
                (one_uuid_drawn w)) as H.
  destruct script_content;
    try (split; [reflexivity | left; eexists; reflexivity]);
    (destruct (VariantA.render_script_json E _ _ quality format scene_name
                 (one_uuid_drawn w)) as [[e|result] w2];
     [ subst w2; split; [reflexivity | left; eexists; reflexivity]
     | destruct H as (Hc & Hid & [[msg ->] | Hok]);
       [ cbn; split; [rewrite Hc; reflexivity | right; left; eauto]
       | unfold dict_get; rewrite Hok; cbn;
         split; [rewrite Hc; reflexivity | right; right; eauto] ] ]).
Qed.

Lemma render_any_B_shape (E : env) (script_content : json)
    (quality format scene_name : json) (return_base64 : bool) (w : world) :
  let rid := uuid4_value E (uuid_count w) in
  let a := VariantB.render_any E script_content rid quality format scene_name
             return_base64 (one_uuid_drawn w) in
  uuid_count (snd a) = S (uuid_count w) /\
  ((exists e, fst a = internal_error E e) \/
   (exists msg, fst a = Response (JObj (failure_result E msg rid)) 500) \/
   (exists result,
      fst a = Response (JObj result) 200 /\
      dict_lookup result "success" = Some (JBool true) /\
      dict_lookup result "request_id" = Some (JStr rid))).
Proof.
  cbv zeta. unfold VariantB.render_any.
  pose proof (render_script_json_B_result E script_content
                (uuid4_value E (uuid_count w)) quality format scene_name
                return_base64 (one_uuid_drawn w)) as H.
  cbv zeta in H.
  destruct script_content;
    try (split; [reflexivity | left; eexists; reflexivity]);
    (destruct (VariantB.render_script_json E _ _ quality format scene_name
                 return_base64 (one_uuid_drawn w)) as [result w2];
     cbn [fst snd] in H;
     destruct H as (Hc & Hid & [[msg ->] | Hok]);
     [ cbn; split; [rewrite Hc; reflexivity | right; left; eauto]
     | unfold dict_get; rewrite Hok; cbn;
       split; [rewrite Hc; reflexivity | right; right; eauto] ]).
Qed.

Lemma render_script_A_ids (E : env) (script_content request_id : string)
    (quality format scene_name : option string) (w : world) :
  let r := VariantA.render_script E script_content request_id quality format
             scene_name w in
  uuid_count (snd r) = uuid_count w /\
  dict_lookup (fst r) "request_id" = Some (JStr request_id) /\
  ((exists msg, fst r = failure_result E msg request_id) \/
   dict_lookup (fst r) "success" = Some (JBool true)).
Proof.
  cbv zeta. unfold VariantA.render_script, VariantA.render_try.
  destruct (validate_script script_content) as [[|] msg]; cbn [negb].
  - render_cases; after_render;
      (split; [reflexivity|]); (split; [reflexivity|]);
      first [left; eexists; reflexivity | right; reflexivity].
  - unfold raise. after_render.
    all: (split; [reflexivity|]); (split; [reflexivity|]);
      left; eexists; reflexivity.
Qed.

Lemma render_script_B_ids (E : env) (script_content request_id : string)
    (quality format scene_name : option string) (return_base64 : bool)
    (w : world) :
  let r := VariantB.render_script E script_content request_id quality format
             scene_name return_base64 w in
  uuid_count (snd r) = uuid_count w /\
  dict_lookup (fst r) "request_id" = Some (JStr request_id) /\
  ((exists msg, fst r = failure_result E msg request_id) \/
   dict_lookup (fst r) "success" = Some (JBool true)).
Proof.
  cbv zeta. unfold VariantB.render_script, VariantB.render_try.
  destruct (validate_script script_content) as [[|] msg]; cbn [negb].
  - render_cases; after_render;
      (split; [reflexivity|]); (split; [reflexivity|]);
      first [left; eexists; reflexivity | right; reflexivity].
  - unfold raise. after_render.
    (split; [reflexivity|]); (split; [reflexivity|]).
    left; eexists; reflexivity.
Qed.

Ltac answer_from_shape H :=
  let Hc := fresh in
  destruct H as [Hc H];
  eexists _, _; split; [apply f_equal; apply surjective_pairing|];
  split; [exact Hc|];
  destruct H as [[? ->] | [[? ->] | (? & -> & ? & ?)]];
  [ left; eauto
  | right; right; left; eauto
  | right; right; right; eauto ].

(** The handler answers every request, whatever the types of its fields:
    it draws one identifier and gives one of the four kinds of answer. *)
Lemma render_video_A_answers (E : env) (req : get_json_outcome) (w : world) :
  exists resp w',
    VariantA.render_video E req w = Some (resp, w') /\
    uuid_count w' = S (uuid_count w) /\
    answer_kind E w resp.
Proof.
  unfold VariantA.render_video, uuid4, answer_kind.
  fold (one_uuid_drawn w).
  destruct req as [e|data];
    [eexists _, _; split; [reflexivity|]; split; [reflexivity | left; eauto]|].
  destruct (truthy data); cbn [negb];
    [|eexists _, _; split; [reflexivity|]; split;
      [reflexivity | right; left; eauto]].
  destruct data as [ | | | | | |d];
    try (eexists _, _; split; [reflexivity|]; split;
         [reflexivity | left; eauto]).
  destruct (truthy (dict_get d "script" JNull)); cbn [negb];
    [|eexists _, _; split; [reflexivity|]; split;
      [reflexivity | right; left; eauto]].
  set (q := dict_get d "quality" (JStr (DEFAULT_QUALITY E))).
  set (f := dict_get d "format" (JStr (DEFAULT_FORMAT E))).
  set (sn := dict_get d "scene_name" JNull).
  pose proof (render_any_A_shape E (dict_get d "script" JNull) q f sn w) as Hany.
  cbv zeta in Hany.
  destruct (dict_get d "script" JNull) as [ | | | |script| | ];
    try (destruct (opt_str_field q) as [?|], (opt_str_field f) as [?|],
           (opt_str_field sn) as [?|]; answer_from_shape Hany).
  destruct (opt_str_field q) as [quality|]; [|answer_from_shape Hany].
  destruct (opt_str_field f) as [format|]; [|answer_from_shape Hany].
  destruct (opt_str_field sn) as [scene_name|]; [|answer_from_shape Hany].
  clear Hany.
  pose proof (render_script_A_ids E script (uuid4_value E (uuid_count w))
                quality format scene_name (one_uuid_drawn w)) as H.
  cbv zeta in H.
  destruct (VariantA.render_script E script (uuid4_value E (uuid_count w))
              quality format scene_name (one_uuid_drawn w)) as [result w2].
  cbn [fst snd] in H. destruct H as (Hc & Hid & [[msg ->] | Hok]).
  - cbn. eexists _, _. split; [reflexivity|].
    split; [rewrite Hc; reflexivity | right; right; left; eauto].
  - unfold dict_get at 1. rewrite Hok. cbn. eexists _, _.
    split; [reflexivity|].
    split; [rewrite Hc; reflexivity | right; right; right; eauto].
Qed.

Lemma render_video_B_answers (E : env) (req : get_json_outcome) (w : world) :
  exists resp w',
    VariantB.render_video E req w = Some (resp, w') /\
    uuid_count w' = S (uuid_count w) /\
    answer_kind E w resp.
Proof.
  unfold VariantB.render_video, uuid4, answer_kind.
  fold (one_uuid_drawn w).
  destruct req as [e|data];
    [eexists _, _; split; [reflexivity|]; split; [reflexivity | left; eauto]|].
  destruct (truthy data); cbn [negb];
    [|eexists _, _; split; [reflexivity|]; split;
      [reflexivity | right; left; eauto]].
  destruct data as [ | | | | | |d];
    try (eexists _, _; split; [reflexivity|]; split;
         [reflexivity | left; eauto]).
  destruct (truthy (dict_get d "script" JNull)); cbn [negb];
    [|eexists _, _; split; [reflexivity|]; split;
      [reflexivity | right; left; eauto]].
  set (q := dict_get d "quality" (JStr (DEFAULT_QUALITY E))).
  set (f := dict_get d "format" (JStr (DEFAULT_FORMAT E))).
  set (sn := dict_get d "scene_name" JNull).
  set (rb := truthy (dict_get d "return_base64" (JBool false))).
  pose proof (render_any_B_shape E (dict_get d "script" JNull) q f sn rb w)
    as Hany.
  cbv zeta in Hany.
  destruct (dict_get d "script" JNull) as [ | | | |script| | ];
    try (destruct (opt_str_field q) as [?|], (opt_str_field f) as [?|],
           (opt_str_field sn) as [?|]; answer_from_shape Hany).
  destruct (opt_str_field q) as [quality|]; [|answer_from_shape Hany].
  destruct (opt_str_field f) as [format|]; [|answer_from_shape Hany].
  destruct (opt_str_field sn) as [scene_name|]; [|answer_from_shape Hany].
  clear Hany.
  pose proof (render_script_B_ids E script (uuid4_value E (uuid_count w))
                quality format scene_name rb (one_uuid_drawn w)) as H.
  cbv zeta in H.
  destruct (VariantB.render_script E script (uuid4_value E (uuid_count w))
              quality format scene_name rb (one_uuid_drawn w)) as [result w2].
  cbn [fst snd] in H. destruct H as (Hc & Hid & [[msg ->] | Hok]).
  - cbn. eexists _, _. split; [reflexivity|].
    split; [rewrite Hc; reflexivity | right; right; left; eauto].
  - unfold dict_get at 1. rewrite Hok. cbn. eexists _, _.
    split; [reflexivity|].
    split; [rewrite Hc; reflexivity | right; right; right; eauto].
Qed.

(** C5 as stated fails: the answer to a request without a body has neither
    [success] nor [request_id] nor [timestamp], and the answer to a fault
    caught at the handler boundary has no [request_id]. *)
Lemma failure_body_counterexample :
  let E := stub_env stub_render None in
  (exists resp w',
     VariantA.render_video E (GetJsonReturns JNull) empty_world
     = Some (resp, w') /\
     resp = Response (JObj [("error", JStr "No JSON data provided")]) 400 /\
     ~ structured_failure (body resp)) /\
  (exists resp w',
     VariantA.render_video E
       (GetJsonRaises (OtherException "400 Bad Request")) empty_world
     = Some (resp, w') /\
     resp = Response
              (JObj [ ("success", JBool false);
                      ("error",
                        JStr "Internal server error: 400 Bad Request");
                      ("timestamp", JStr "2024-05-01T12:00:00") ]) 500 /\
     ~ structured_failure (body resp)).
Proof.
  split; eexists _, _; (split; [reflexivity|]); (split; [reflexivity|]);
    intros (fields & msg & rid & ts & Hb & Hs & He & Hr & Ht);
    cbn in Hb; injection Hb as <-; discriminate.
Qed.

(** C5, amended: the handler answers every request, whatever the JSON types
    of its fields, and every answer other than 200, in either variant, has a
    JSON object body with an [error] message, in one of three shapes: HTTP 400
    with [error] alone (no body, or no non-empty script); HTTP 500 with
    [success] false, [error] and [timestamp] but no [request_id] (a fault
    caught at the handler boundary: a body that does not parse or is no
    object, a script without a length, or, in variant A, an unhashable
    quality, which [render_script] raises before its [try] block); HTTP 500
    with [success] false, [error], [request_id] and [timestamp] (every failure
    that [render_script] returns as its result: validation, non-zero exit,
    timeout, missing artifact, any fault caught by its [except] clauses). *)
Theorem failure_responses (E : env) (req : get_json_outcome) (w : world) :
  (exists resp w', VariantA.render_video E req w = Some (resp, w')) /\
  (exists resp w', VariantB.render_video E req w = Some (resp, w')) /\
  forall (resp : response) (w' : world),
    VariantA.render_video E req w = Some (resp, w')
    \/ VariantB.render_video E req w = Some (resp, w') ->
    status resp <> 200%Z ->
    ((status resp = 400%Z /\
      exists msg, body resp = JObj [("error", JStr msg)]) \/
     (status resp = 500%Z /\
      exists e,
        body resp
        = JObj [ ("success", JBool false);
                 ("error", JStr ("Internal server error: " +:+ str_exn e));
                 ("timestamp", JStr (utcnow_isoformat E)) ]) \/
     (status resp = 500%Z /\
      structured_failure (body resp) /\
      exists msg,
        body resp
        = JObj [ ("success", JBool false);
                 ("error", JStr msg);
                 ("request_id", JStr (uuid4_value E (uuid_count w)));
                 ("timestamp", JStr (utcnow_isoformat E)) ])) /\
    (exists fields msg,
       body resp = JObj fields /\ dict_lookup fields "error" = Some (JStr msg)).
Proof.
  destruct (render_video_A_answers E req w) as (ra & wa & HA & _ & Hka).
  destruct (render_video_B_answers E req w) as (rb & wb & HB & _ & Hkb).
  split; [eauto|]. split; [eauto|].
  intros resp w' Hrun Hst.
  assert (Hk : answer_kind E w resp).
  { destruct Hrun as [H|H]; [rewrite HA in H | rewrite HB in H];
      injection H as <- <-; assumption. }
  clear - Hk Hst.
  destruct Hk as [[e ->] | [[msg ->] | [[msg ->] | (result & -> & _)]]].
  - split; [right; left; split; [reflexivity | eauto]|].
    eexists _, _. split; reflexivity.
  - split; [left; split; [reflexivity | eauto]|].
    eexists _, _. split; reflexivity.
  - split.
    + right. right. split; [reflexivity|].
      split; [apply failure_result_structured | eauto].
    + eexists _, _. split; reflexivity.
  - exfalso. apply Hst. reflexivity.
Qed.

Lemma failure_responses_witness :
  let E := stub_env stub_hang None in
  let req := GetJsonReturns (JObj [("script", JInt 123)]) in
  (exists resp w', VariantA.render_video E req empty_world = Some (resp, w')) /\
  (exists resp w', VariantB.render_video E req empty_world = Some (resp, w')) /\
  forall (resp : response) (w' : world),
    VariantA.render_video E req empty_world = Some (resp, w')
    \/ VariantB.render_video E req empty_world = Some (resp, w') ->
    status resp <> 200%Z ->
    ((status resp = 400%Z /\
      exists msg, body resp = JObj [("error", JStr msg)]) \/
     (status resp = 500%Z /\
      exists e,
        body resp
        = JObj [ ("success", JBool false);
                 ("error", JStr ("Internal server error: " +:+ str_exn e));
                 ("timestamp", JStr (utcnow_isoformat E)) ]) \/
     (status resp = 500%Z /\
      structured_failure (body resp) /\
      exists msg,
        body resp
        = JObj [ ("success", JBool false);
                 ("error", JStr msg);
                 ("request_id", JStr (uuid4_value E (uuid_count empty_world)));
                 ("timestamp", JStr (utcnow_isoformat E)) ])) /\
    (exists fields msg,
       body resp = JObj fields /\ dict_lookup fields "error" = Some (JStr msg)).
Proof.
  exact (failure_responses (stub_env stub_hang None)
           (GetJsonReturns (JObj [("script", JInt 123)])) empty_world).
Defined.

(** Requests with fields of an unexpected type: a number as script, a list
    as quality (variant A), a number as format. *)
Example ill_typed_requests :
  let E := stub_env stub_render None in
  VariantA.render_video E (GetJsonReturns (JObj [("script", JInt 123)]))
    empty_world
  = Some (internal_error E
            (OtherException "object of type 'int' has no len()"),
          one_uuid_drawn empty_world) /\
  VariantA.render_video E
    (GetJsonReturns (JObj [("script", JStr valid_script);
                           ("quality", JArr [JStr "high_quality"])]))
    empty_world
  = Some (internal_error E (OtherException "unhashable type: 'list'"),
          one_uuid_drawn empty_world) /\
  option_map fst
    (VariantB.render_video E
       (GetJsonReturns (JObj [("script", JStr valid_script);
                              ("format", JInt 4)])) empty_world)
  = Some (Response
            (JObj (failure_result E
                     "Rendering failed: sequence item 8: expected str instance, int found"
                     "req-0")) 500).
Proof. repeat split; vm_compute; reflexivity. Qed.

(** ** A failing upload *)


Lemma str_or_idem (x : option string) (d : string) :
  str_or (Some (str_or x d)) d = str_or x d.
Proof.
  unfold str_or. destruct x as [s|].
  - destruct (String.eqb s "") eqn:Hs.
    + destruct (String.eqb d ""); reflexivity.
    + rewrite Hs. reflexivity.
  - destruct (String.eqb d ""); reflexivity.
Qed.

(** What [render_script] of variant A does when the tool succeeds, an
    artifact is found and the upload raises [e]. *)
Lemma render_script_A_upload_fails (E : env)
    (client : string -> string -> option exn)
    (script_content request_id : string)
    (quality format scene_name : option string) (w : world)
    (out err : string) (fs' : gmap string (list byte))
    (video_file : string) (rest : list string) (e : exn) :
  let fmt := str_or format (DEFAULT_FORMAT E) in
  let blob_name :=
    "videos/" +:+ request_id +:+ "/video_" +:+ request_id +:+ "." +:+ fmt in
  fst (validate_script script_content) = true ->
  manim E
    (VariantA.build_cmd request_id
       (VariantA.quality_flag (str_or quality (DEFAULT_QUALITY E))) fmt
       scene_name)
    (<[script_path request_id := list_byte_of_string script_content]>
       (files w))
  = Exited 0 out err fs' ->
  rglob (path_join OUTPUT_DIR request_id) fmt fs' = video_file :: rest ->
  storage_client E = Some client ->
  client video_file blob_name = Some e ->
  exists msg w',
    VariantA.render_script E script_content request_id quality format
                           scene_name w
    = (failure_result E msg request_id, w') /\
    (e <> TimeoutExpired -> msg = "Rendering failed: " +:+ str_exn e) /\
    uploads w' = (video_file, blob_name) :: uploads w.
Proof.
  intros fmt blob_name Hv Hrun Hglob Hclient Hup.
  unfold VariantA.render_script, VariantA.render_try.
  destruct (validate_script script_content) as [v m]. simpl in Hv. subst v.
  cbn [negb].
  unfold bind, write_text, mkdir_exist_ok, modify, gets, ret, raise,
    subprocess_run, VariantA._upload_to_gcs.
  cbn [files runs uploads metrics uuid_count set_files].
  fold fmt. rewrite Hrun.
  cbn [files runs uploads metrics uuid_count set_files returncode negb Z.eqb].
  rewrite Hglob, Hclient. fold blob_name. rewrite Hup.
  unfold VariantA._report_metrics, unlink_missing_ok.
  destruct e; destruct (monitoring_client E); eexists _, _;
    (split; [reflexivity|]); (split; [|reflexivity]);
    intros Hne; try reflexivity; congruence.
Qed.

Lemma str_or_default (x : option string) (d : string) :
  str_or (Some (default d x)) d = str_or x d.
Proof.
  destruct x as [s|]; [reflexivity|]. apply (str_or_idem None d).
Qed.

Lemma valid_script_nonempty (script : string) :
  fst (validate_script script) = true -> String.eqb script "" = false.
Proof.
  destruct script; [intros H; vm_compute in H; discriminate | reflexivity].
Qed.

(** The handler on a request made of typed fields: it draws an identifier
    and maps the result of [render_script] to 200 or 500. *)
Lemma render_video_A_request_body (E : env) (script : string)
    (quality format scene_name : option string) (w : world) :
  String.eqb script "" = false ->
  VariantA.render_video E
    (GetJsonReturns (request_body script quality format scene_name)) w
  = let '(result, w2) :=
      VariantA.render_script E script (uuid4_value E (uuid_count w))
        quality format scene_name (one_uuid_drawn w) in
    if truthy (dict_get result "success" JNull)
    then Some (Response (JObj result) 200, w2)
    else Some (Response (JObj result) 500, w2).
Proof.
  intros Hne.
  assert (Hq : forall q f,
    VariantA.render_script E script (uuid4_value E (uuid_count w))
      (Some (default (DEFAULT_QUALITY E) q)) (Some (default (DEFAULT_FORMAT E) f))
      scene_name (one_uuid_drawn w)
    = VariantA.render_script E script (uuid4_value E (uuid_count w))
        q f scene_name (one_uuid_drawn w)).
  { intros q f. unfold VariantA.render_script. rewrite !str_or_default.
    reflexivity. }
  rewrite <- (Hq quality format).
  unfold VariantA.render_video, uuid4, request_body, one_uuid_drawn.
  cbn [truthy negb]. unfold dict_get at 1. cbn [dict_lookup String.eqb Ascii.eqb
    Bool.eqb]. cbn [truthy]. rewrite Hne. cbn [negb].
  destruct quality, format, scene_name; reflexivity.
Qed.



(** * Further properties of the code *)

(** ** Validation *)

(** X1: [validate_script] accepts a script exactly when no denylisted word
    occurs in it, it contains [from manim import] or [import manim], and it
    contains both [class] and [Scene]. *)
Theorem validate_script_accepts_iff (script_content : string) :
  fst (validate_script script_content) = true <->
  (forall d, In d dangerous_imports -> contains d script_content = false) /\
  (contains "from manim import" script_content = true
   \/ contains "import manim" script_content = true) /\
  contains "class" script_content = true /\
  contains "Scene" script_content = true.
Proof.
  rewrite <- scan_dangerous_none. unfold validate_script.
  destruct (scan_dangerous dangerous_imports script_content) as [d|].
  { split; [discriminate | intros [H _]; discriminate]. }
  destruct (contains "from manim import" script_content),
    (contains "import manim" script_content),
    (contains "class" script_content),
    (contains "Scene" script_content); cbn;
    split; intros H; try discriminate; try tauto;
    try (repeat split; auto; fail);
    destruct H as (_ & [H|H] & Hc & Hs); discriminate.
Qed.

(** X2: the verdict is "Script must import manim" exactly when no denylisted
    word occurs in the script and neither import form does, whether or not
    the script has a Scene class. *)
Theorem validate_script_missing_import_iff (script_content : string) :
  validate_script script_content = (false, "Script must import manim") <->
  (forall d, In d dangerous_imports -> contains d script_content = false) /\
  contains "from manim import" script_content = false /\
  contains "import manim" script_content = false.
Proof.
  rewrite <- scan_dangerous_none. unfold validate_script.
  destruct (scan_dangerous dangerous_imports script_content) as [d|].
  { split; [discriminate | intros [H _]; discriminate]. }
  destruct (contains "from manim import" script_content),
    (contains "import manim" script_content); cbn;
    try (split; [intros _; auto | reflexivity]);
    (split; [|intros (_ & H1 & H2); discriminate]);
    destruct (contains "class" script_content),
      (contains "Scene" script_content); cbn; discriminate.
Qed.

(** ** The failure paths of [render_script] *)

(** Brings two equations on the same term together. *)
Ltac unify_outcomes :=
  repeat match goal with
  | H1 : ?t = _, H2 : ?t = _ |- _ =>
      rewrite H1 in H2;
      first [discriminate H2 | injection H2 as ?; subst | clear H2]
  | H : Exited _ _ _ _ = Exited _ _ _ _ |- _ => injection H as ? ? ? ?; subst
  | H : TimedOut _ = TimedOut _ |- _ => injection H as ?; subst
  | H : LaunchFailed _ = LaunchFailed _ |- _ => injection H as ?; subst
  | H : _ :: _ = _ :: _ |- _ => injection H as ? ?; subst
  | H : Some _ = Some _ |- _ => injection H as ?; subst
  | H : (?rc =? 0)%Z = true |- _ => apply Z.eqb_eq in H; subst
  | H : (?rc =? 0)%Z = false |- _ => apply Z.eqb_neq in H
  end.

Ltac open_render v :=
  destruct v;
  cbn [render_with tool_outcome command] in *;
  unfold VariantA.render_script, VariantA.render_try,
    VariantB.render_script, VariantB.render_try.

Lemma uploads_report_metrics (E : env) (t : Q) (n : Z) (b : bool) (w : world) :
  uploads (VariantA._report_metrics E t n b w) = uploads w.
Proof.
  unfold VariantA._report_metrics. destruct (monitoring_client E); reflexivity.
Qed.

(** X3: whatever the reason a script fails validation, [render_script]
    (either variant) returns the failure result whose error is
    "Rendering failed: Script validation failed: " followed by the message of
    [validate_script]; it starts no process and uploads nothing, and the only
    change to the file system is that a file already at the scratch path is
    removed: the script is never written to disk. *)
Theorem rejected_script_result (v : variant) (E : env)
    (script_content request_id : string)
    (quality format scene_name : option string) (return_base64 : bool)
    (w : world) :
  fst (validate_script script_content) = false ->
  let r := render_with v E script_content request_id quality format scene_name
             return_base64 w in
  fst r
  = failure_result E
      ("Rendering failed: Script validation failed: "
         +:+ snd (validate_script script_content)) request_id /\
  runs (snd r) = runs w /\
  uploads (snd r) = uploads w /\
  files (snd r) = delete (script_path request_id) (files w) /\
  (files w !! script_path request_id = None -> files (snd r) = files w).
Proof.
  intros Hv r. subst r.
  destruct (validate_script script_content) as [ok msg] eqn:Hval.
  cbn [fst snd] in *. subst ok.
  assert (Hfiles : files (snd (render_with v E script_content request_id
                                 quality format scene_name return_base64 w))
                   = delete (script_path request_id) (files w)).
  { destruct v; cbn [render_with].
    - rewrite (render_script_A_invalid _ _ _ _ _ _ _ _ Hval). cbn [snd].
      unfold unlink_missing_ok. cbn [files set_files].
      apply f_equal, files_report_metrics.
    - rewrite (render_script_B_invalid _ _ _ _ _ _ _ _ _ Hval). reflexivity. }
  rewrite Hfiles.
  destruct v; cbn [render_with].
  - rewrite (render_script_A_invalid _ _ _ _ _ _ _ _ Hval). cbn [fst snd].
    rewrite runs_unlink, runs_report_metrics.
    unfold unlink_missing_ok at 1. cbn [uploads set_files].
    rewrite uploads_report_metrics.
    repeat split; auto. intros Hn. apply delete_id. exact Hn.
  - rewrite (render_script_B_invalid _ _ _ _ _ _ _ _ _ Hval). cbn [fst snd].
    repeat split; auto. intros Hn. apply delete_id. exact Hn.
Qed.

Lemma rejected_script_result_witness :
  let r := render_with DirectReturn (stub_env stub_render None)
             "class Demo(Scene): pass" "req-0" None None None false
             empty_world in
  fst r
  = failure_result (stub_env stub_render None)
      ("Rendering failed: Script validation failed: "
         +:+ snd (validate_script "class Demo(Scene): pass")) "req-0" /\
  runs (snd r) = runs empty_world /\
  uploads (snd r) = uploads empty_world /\
  files (snd r) = delete (script_path "req-0") (files empty_world) /\
  (files empty_world !! script_path "req-0" = None ->
   files (snd r) = files empty_world).
Proof.
  apply (rejected_script_result DirectReturn (stub_env stub_render None)
           "class Demo(Scene): pass" "req-0" None None None false empty_world).
  reflexivity.
Defined.









(** ** The success path of [render_script] *)

Lemma rglob_head_is_file (dir format : string) (fs : gmap string (list byte))
    (p : string) (rest : list string) :
  rglob dir format fs = p :: rest -> exists data, fs !! p = Some data.
Proof.
  intros H. apply (rglob_is_file dir format). rewrite H. left.
Qed.







(** ** Metrics, uploads and processes per render *)

(** X11: every call of variant A's [render_script] reports to the monitoring
    client exactly once when there is one, with the success flag of the
    result it returns, and never otherwise; it starts at most one process and
    uploads at most one file. *)
Theorem one_metric_point_per_render (E : env)
    (script_content request_id : string)
    (quality format scene_name : option string) (w : world) :
  let r := VariantA.render_script E script_content request_id quality format
             scene_name w in
  metrics (snd r)
  = (if monitoring_client E then
       [((clock_end E - clock_start E)%Q,
         truthy (dict_get (fst r) "success" JNull))]
     else []) ++ metrics w /\
  (runs (snd r) = runs w \/ exists cmd, runs (snd r) = cmd :: runs w) /\
  (uploads (snd r) = uploads w \/ exists u, uploads (snd r) = u :: uploads w).
Proof.
  cbv zeta. unfold VariantA.render_script, VariantA.render_try.
  destruct (validate_script script_content) as [[|] msg]; cbn [negb].
  - render_cases; cbn [fst snd]; unfold unlink_missing_ok, VariantA._report_metrics;
      destruct (monitoring_client E);
      cbn [metrics runs uploads set_files];
      (split; [reflexivity|]); split; eauto.
  - unfold raise. cbn [fst snd]. unfold unlink_missing_ok, VariantA._report_metrics.
    destruct (monitoring_client E); cbn [metrics runs uploads set_files];
      (split; [reflexivity|]); split; eauto.
Qed.

(** X12: variant B's [render_script] never uploads and never reports a
    metric, on any path; it starts at most one process. *)
Theorem direct_return_no_cloud_effects (E : env)
    (script_content request_id : string)
    (quality format scene_name : option string) (return_base64 : bool)
    (w : world) :
  let r := VariantB.render_script E script_content request_id quality format
             scene_name return_base64 w in
  uploads (snd r) = uploads w /\
  metrics (snd r) = metrics w /\
  uuid_count (snd r) = uuid_count w /\
  (runs (snd r) = runs w \/ exists cmd, runs (snd r) = cmd :: runs w).
Proof.
  cbv zeta. unfold VariantB.render_script, VariantB.render_try.
  destruct (validate_script script_content) as [[|] msg]; cbn [negb].
  - render_cases; cbn [fst snd]; unfold unlink_missing_ok;
      cbn [metrics runs uploads uuid_count set_files]; repeat split; eauto.
  - unfold raise. cbn [fst snd]. unfold unlink_missing_ok.
    cbn [metrics runs uploads uuid_count set_files]. repeat split; eauto.
Qed.

(** Success of [render_script] in terms of the listing of the search. *)
Lemma render_success_head (v : variant) (E : env)
    (script_content request_id : string)
    (quality format scene_name : option string) (return_base64 : bool)
    (w : world) :
  dict_lookup
    (fst (render_with v E script_content request_id quality format scene_name
                      return_base64 w)) "success"
  = Some (JBool true) <->
  fst (validate_script script_content) = true /\
  exists out err fs' video_file rest,
    tool_outcome v E script_content request_id quality format scene_name w
    = Exited 0 out err fs' /\
    rglob (path_join OUTPUT_DIR request_id) (str_or format (DEFAULT_FORMAT E))
          fs'
    = video_file :: rest /\
    upload_goes_through v E video_file
      ("videos/" +:+ request_id +:+ "/video_" +:+ request_id +:+ "."
         +:+ str_or format (DEFAULT_FORMAT E)).
Proof.
  unfold tool_outcome, upload_goes_through.
  open_render v;
    (destruct (validate_script script_content) as [[|] msg]; cbn [negb fst];
     [|split; [intros H; discriminate H | intros [H _]; discriminate H]]);
    render_cases; cbn [fst];
    try match goal with
    | Hg : rglob _ _ ?fs = ?p :: _, Hn : ?fs !! ?p = None |- _ =>
        destruct (rglob_head_is_file _ _ _ _ _ Hg); congruence
    end;
    (split;
     [ intros H;
       first [ discriminate H
             | unify_outcomes; split; [reflexivity|];
               eexists _, _, _, _, _; repeat split; eauto ]
     | intros (_ & out & err & fs0 & vf & rest & Ho & Hg & Hu);
       unify_outcomes; try congruence; try reflexivity ]).
Qed.



(** ** The render endpoint *)

(** X14: whatever the request and the JSON types of its fields, the handler
    (either variant) answers it: it draws exactly one identifier and answers
    with status 200, 400 or 500; the status is 200 exactly when the body has
    [success] true, and any [request_id] in the body is the identifier drawn
    for this request. *)
Theorem handler_status_and_identifier (v : variant) (E : env)
    (req : get_json_outcome) (w : world) :
  exists resp w',
    handle_with v E req w = Some (resp, w') /\
    uuid_count w' = S (uuid_count w) /\
    (status resp = 200%Z \/ status resp = 400%Z \/ status resp = 500%Z) /\
    (status resp = 200%Z <->
     exists fields,
       body resp = JObj fields /\
       dict_lookup fields "success" = Some (JBool true)) /\
    (forall fields request_id,
       body resp = JObj fields ->
       dict_lookup fields "request_id" = Some (JStr request_id) ->
       request_id = uuid4_value E (uuid_count w)).
Proof.
  assert (H : exists resp w',
             handle_with v E req w = Some (resp, w') /\
             uuid_count w' = S (uuid_count w) /\ answer_kind E w resp).
  { destruct v; [apply render_video_A_answers | apply render_video_B_answers]. }
  destruct H as (resp & w' & Hrun & Hc & Hk).
  exists resp, w'. split; [exact Hrun|]. split; [exact Hc|].
  destruct Hk as [[e ->] | [[msg ->] | [[msg ->] | (result & -> & Hok & Hid)]]].
  - split; [auto|].
    split; [split; [discriminate | intros (fs & [= <-] & Hs); discriminate]|].
    intros fs rid [= <-] Hr. discriminate.
  - split; [auto|].
    split; [split; [discriminate | intros (fs & [= <-] & Hs); discriminate]|].
    intros fs rid [= <-] Hr. discriminate.
  - split; [auto|].
    split; [split; [discriminate | intros (fs & [= <-] & Hs); discriminate]|].
    intros fs rid [= <-] [= <-]. reflexivity.
  - split; [auto|].
    split; [split; [eauto | reflexivity]|].
    intros fs rid [= <-] Hr. congruence.
Qed.

Example handler_second_request :
  exists result w',
    handle_with DirectReturn (stub_env stub_render None)
      (GetJsonReturns (request_body valid_script None None None))
      (one_uuid_drawn empty_world)
    = Some (Response (JObj result) 200, w') /\
    dict_lookup result "request_id" = Some (JStr "req-1") /\
    uuid_count w' = 2%nat.
Proof. eexists _, _. repeat split; vm_compute; reflexivity. Qed.

(** X15: a request whose body does not parse ([get_json] raises), or parses
    to a non-empty JSON value that is not an object (an array, a string, a
    number, [true]), is answered by either variant with HTTP 500 and the
    handler's internal-error payload, not with 400; one identifier has been
    drawn and nothing else has happened. *)
Theorem non_object_body_internal_error (v : variant) (E : env)
    (req : get_json_outcome) (w : world) :
  match req with
  | GetJsonRaises _ => True
  | GetJsonReturns data => truthy data = true /\ forall d, data <> JObj d
  end ->
  exists e,
    handle_with v E req w = Some (internal_error E e, one_uuid_drawn w) /\
    match req with
    | GetJsonRaises e' => e = e'
    | GetJsonReturns data =>
        e = OtherException
              ("'" +:+ py_type_name data +:+ "' object has no attribute 'get'")
    end.
Proof.
  destruct req as [e|data].
  - intros _. exists e. destruct v; split; reflexivity.
  - intros [Ht Hobj]. eexists. split; [|reflexivity].
    destruct v; cbn [handle_with];
      unfold VariantA.render_video, VariantB.render_video, uuid4;
      rewrite Ht; cbn [negb];
      destruct data; try reflexivity;
      exfalso; eapply Hobj; reflexivity.
Qed.

Lemma non_object_body_internal_error_witness :
  exists e,
    handle_with CloudStorage (stub_env stub_render None)
      (GetJsonReturns (JArr [JStr valid_script])) empty_world
    = Some (internal_error (stub_env stub_render None) e,
            one_uuid_drawn empty_world) /\
    e = OtherException
          ("'" +:+ py_type_name (JArr [JStr valid_script])
             +:+ "' object has no attribute 'get'").
Proof.
  apply (non_object_body_internal_error CloudStorage (stub_env stub_render None)
           (GetJsonReturns (JArr [JStr valid_script])) empty_world).
  split; [reflexivity | discriminate].
Defined.

Lemma render_with_defaults (v : variant) (E : env)
    (script_content request_id : string)
    (quality format scene_name : option string) (return_base64 : bool)
    (w : world) :
  render_with v E script_content request_id
    (Some (str_or quality (DEFAULT_QUALITY E)))
    (Some (str_or format (DEFAULT_FORMAT E))) scene_name return_base64 w
  = render_with v E script_content request_id quality format scene_name
      return_base64 w.
Proof.
  destruct v; cbn [render_with];
    unfold VariantA.render_script, VariantB.render_script;
    rewrite !str_or_idem; reflexivity.
Qed.

(** X16: [render_script] (either variant) treats a quality or format that
    is absent or the empty string exactly like the configured default: the
    whole result and all effects are those of the call with the defaults
    spelled out. *)
Theorem defaults_applied (v : variant) (E : env)
    (script_content request_id : string)
    (scene_name : option string) (return_base64 : bool) (w : world) :
  let spelled_out :=
    render_with v E script_content request_id (Some (DEFAULT_QUALITY E))
      (Some (DEFAULT_FORMAT E)) scene_name return_base64 w in
  render_with v E script_content request_id None None scene_name
              return_base64 w = spelled_out /\
  render_with v E script_content request_id (Some "") (Some "") scene_name
              return_base64 w = spelled_out /\
  render_with v E script_content request_id None (Some "") scene_name
              return_base64 w = spelled_out /\
  render_with v E script_content request_id (Some "") None scene_name
              return_base64 w = spelled_out.
Proof.
  cbv zeta.
  repeat split; symmetry;
    first [ exact (render_with_defaults v E script_content request_id None None
                     scene_name return_base64 w)
          | exact (render_with_defaults v E script_content request_id
                     (Some "") (Some "") scene_name return_base64 w)
          | exact (render_with_defaults v E script_content request_id None
                     (Some "") scene_name return_base64 w)
          | exact (render_with_defaults v E script_content request_id
                     (Some "") None scene_name return_base64 w) ].
Qed.

(** ** Paths and the artifact search *)

(** What the two read endpoints of variant B answer when the search finds a
    file. *)
Lemma mp4_found (request_id : string) (w : world) (video_file : string)
    (rest : list string) :
  rglob (path_join OUTPUT_DIR request_id) "mp4" (files w) = video_file :: rest ->
  exists data,
    files w !! video_file = Some data /\
    download_video request_id w
    = SentFile data ("manim_video_" +:+ request_id +:+ ".mp4") "video/mp4" true
    /\
    VariantB.get_render_status request_id w
    = Response
        (JObj [ ("request_id", JStr request_id);
                ("status", JStr "completed");
                ("file_size", JInt (Z.of_nat (length data)));
                ("download_url", JStr ("/download/" +:+ request_id)) ])
        200.
Proof.
  intros Hg. destruct (rglob_head_is_file _ _ _ _ _ Hg) as [data Hd].
  exists data. split; [exact Hd|].
  unfold download_video, VariantB.get_render_status, bind, gets, ret,
    read_bytes, stat_size.
  rewrite Hg, Hd. split; reflexivity.
Qed.



(** The success of a render, read backwards. *)
Lemma successful_render_inv (E : env) (script_content request_id : string)
    (quality format scene_name : option string) (return_base64 : bool)
    (w : world) :
  dict_lookup
    (fst (VariantB.render_script E script_content request_id quality format
                                 scene_name return_base64 w)) "success"
  = Some (JBool true) ->
  exists fs' video_file rest data,
    rglob (path_join OUTPUT_DIR request_id) (str_or format (DEFAULT_FORMAT E))
          fs'
    = video_file :: rest /\
    fs' !! video_file = Some data /\
    dict_lookup
      (fst (VariantB.render_script E script_content request_id quality format
                                   scene_name return_base64 w))
      "video_file_path"
    = Some (JStr video_file) /\
    files (snd (VariantB.render_script E script_content request_id quality
                  format scene_name return_base64 w))
    = delete (script_path request_id) fs'.
Proof.
  unfold VariantB.render_script, VariantB.render_try.
  destruct (validate_script script_content) as [[|] msg]; cbn [negb];
    [|intros H; discriminate H].
  render_cases; cbn [fst snd]; intros H; try discriminate H;
    unify_outcomes;
    eexists _, _, _, _; (split; [eassumption|]); (split; [eassumption|]);
    (split; [reflexivity|]);
    unfold unlink_missing_ok; cbn [files set_files];
    rewrite delete_delete_eq; reflexivity.
Qed.



(** ** Paths are keyed by the request identifier *)

Lemma length_append (a b : string) :
  String.length (a +:+ b) = (String.length a + String.length b)%nat.
Proof.
  induction a as [|x a IH]; [reflexivity|].
  change (S (String.length (a +:+ b))
          = S (String.length a + String.length b)).
  rewrite IH. reflexivity.
Qed.

Lemma append_inj_r (a b t : string) : a +:+ t = b +:+ t -> a = b.
Proof.
  revert b. induction a as [|x a IH]; intros [|y b] H.
  - reflexivity.
  - apply (f_equal String.length) in H.
    rewrite !length_append in H. cbn [String.length] in H. lia.
  - apply (f_equal String.length) in H.
    rewrite !length_append in H. cbn [String.length] in H. lia.
  - change (String x (a +:+ t) = String y (b +:+ t)) in H.
    injection H as -> H. rewrite (IH _ H). reflexivity.
Qed.

Lemma script_path_unfold (request_id : string) :
  script_path request_id = "/app/temp/script_" +:+ (request_id +:+ ".py").
Proof. reflexivity. Qed.

Lemma no_slash_cons (c : ascii) (s : string) :
  contains "/" (String c s) = false ->
  c <> "/"%char /\ contains "/" s = false.
Proof.
  cbn [contains]. intros H. apply orb_false_iff in H as [Hp Hs].
  split; [|exact Hs].
  intros ->. cbn in Hp. destruct s; discriminate Hp.
Qed.

(** Two paths with the same text have the same first component. *)
Lemma first_component (a b t1 t2 : string) :
  contains "/" a = false -> contains "/" b = false ->
  a +:+ "/" +:+ t1 = b +:+ "/" +:+ t2 -> a = b.
Proof.
  revert b. induction a as [|x a IH]; intros [|y b] Ha Hb H.
  - reflexivity.
  - apply no_slash_cons in Hb as [Hy _].
    change (String "/" t1 = String y (b +:+ "/" +:+ t2)) in H.
    injection H as H _. congruence.
  - apply no_slash_cons in Ha as [Hx _].
    change (String x (a +:+ "/" +:+ t1) = String "/" t2) in H.
    injection H as H _. congruence.
  - apply no_slash_cons in Ha as [_ Ha]. apply no_slash_cons in Hb as [_ Hb].
    change (String x (a +:+ "/" +:+ t1) = String y (b +:+ "/" +:+ t2)) in H.
    injection H as -> H. rewrite (IH b Ha Hb H). reflexivity.
Qed.

Lemma plain_identifier_no_slash (request_id : string) :
  plain_identifier request_id = true -> contains "/" request_id = false.
Proof.
  unfold plain_identifier. intros H. apply andb_true_iff in H as [_ H].
  apply negb_true_iff in H. exact H.
Qed.

(** X19: renders are kept apart by their identifiers. For two different
    identifiers that are single path components other than [.] and [..]
    (as those [uuid.uuid4] draws are): the scratch file is
    [/app/temp/script_<id>.py] and the output directory [/app/output/<id>];
    the two scratch files differ and the two output directories differ; and
    whatever the files and the formats, a file that the artifact search of
    one request finds is no scratch file and is not found by the search of
    the other request. *)
Theorem request_paths_distinct (id1 id2 : string) :
  plain_identifier id1 = true -> plain_identifier id2 = true ->
  id1 <> id2 ->
  script_path id1 = "/app/temp/script_" +:+ id1 +:+ ".py" /\
  path_join OUTPUT_DIR id1 = "/app/output/" +:+ id1 /\
  script_path id1 <> script_path id2 /\
  path_join OUTPUT_DIR id1 <> path_join OUTPUT_DIR id2 /\
  forall (format1 format2 : string) (fs : gmap string (list byte))
         (p : string),
    p ∈ rglob (path_join OUTPUT_DIR id1) format1 fs ->
    p <> script_path id1 /\ p <> script_path id2 /\
    p ∉ rglob (path_join OUTPUT_DIR id2) format2 fs.
Proof.
  intros H1 H2 Hne.
  pose proof (plain_identifier_dir _ H1) as Hd1.
  pose proof (plain_identifier_dir _ H2) as Hd2.
  split; [reflexivity|]. split; [exact Hd1|]. split; [|split].
  - rewrite !script_path_unfold. intros H.
    apply (inj (String.append "/app/temp/script_")) in H.
    apply append_inj_r in H. contradiction.
  - rewrite Hd1, Hd2. intros H.
    apply (inj (String.append "/app/output/")) in H. contradiction.
  - intros format1 format2 fs p Hin.
    apply rglob_literal in Hin as (stem & data & -> & _).
    rewrite Hd1, !script_path_unfold. split; [|split].
    + intros H. discriminate H.
    + intros H. discriminate H.
    + intros Hin. apply rglob_literal in Hin as (stem2 & data2 & H & _).
      rewrite Hd2, !append_assoc in H.
      apply (inj (String.append "/app/output/")) in H.
      apply first_component in H;
        [contradiction | apply plain_identifier_no_slash, H1
         | apply plain_identifier_no_slash, H2].
Qed.

Lemma request_paths_distinct_witness :
  script_path "req-0" = "/app/temp/script_" +:+ "req-0" +:+ ".py" /\
  path_join OUTPUT_DIR "req-0" = "/app/output/" +:+ "req-0" /\
  script_path "req-0" <> script_path "req-1" /\
  path_join OUTPUT_DIR "req-0" <> path_join OUTPUT_DIR "req-1" /\
  forall (format1 format2 : string) (fs : gmap string (list byte))
         (p : string),
    p ∈ rglob (path_join OUTPUT_DIR "req-0") format1 fs ->
    p <> script_path "req-0" /\ p <> script_path "req-1" /\
    p ∉ rglob (path_join OUTPUT_DIR "req-1") format2 fs.
Proof.
  apply (request_paths_distinct "req-0" "req-1").
  - reflexivity.
  - reflexivity.
  - discriminate.
Defined.

(** ** Where the artifact is, and how large the inline data are *)

Lemma render_success_artifact (v : variant) (E : env)
    (script_content request_id : string)
    (quality format scene_name : option string) (return_base64 : bool)
    (w : world) :
  let r := render_with v E script_content request_id quality format scene_name
             return_base64 w in
  dict_lookup (fst r) "success" = Some (JBool true) ->
  exists out err fs' video_file rest data,
    tool_outcome v E script_content request_id quality format scene_name w
    = Exited 0 out err fs' /\
    rglob (path_join OUTPUT_DIR request_id) (str_or format (DEFAULT_FORMAT E))
          fs'
    = video_file :: rest /\
    fs' !! video_file = Some data /\
    dict_lookup (fst r) (video_key v) = Some (JStr video_file) /\
    dict_lookup (fst r) "file_size" = Some (JInt (Z.of_nat (length data))) /\
    dict_lookup (fst r) "format"
    = Some (JStr (str_or format (DEFAULT_FORMAT E))).
Proof.
  cbv zeta. unfold tool_outcome.
  open_render v;
    (destruct (validate_script script_content) as [[|] msg]; cbn [negb];
     [|intros H; discriminate H]);
    render_cases; cbn [fst snd video_key]; intros H; try discriminate H;
    unify_outcomes;
    eexists _, _, _, _, _, _; (split; [reflexivity|]);
    (split; [eassumption|]); (split; [eassumption|]);
    repeat split; reflexivity.
Qed.



Lemma b64encode_length (data : list byte) :
  String.length (b64encode data) = (4 * ((length data + 2) / 3))%nat.
Proof.
  induction data as [|a|a b|a b c rest IH] using list_ind3;
    try reflexivity.
  cbn [b64encode String.length]. rewrite IH. cbn [length].
  replace (S (S (S (length rest))) + 2)%nat
    with (1 * 3 + (length rest + 2))%nat by lia.
  rewrite Nat.div_add_l by lia. lia.
Qed.

(** X21: in variant B, a successful render with [return_base64] set returns
    inline data of exactly [4 * ceil(file_size / 3)] characters, and
    [video_size_mb] is [file_size / 1048576]. *)
Theorem inline_data_size (E : env) (script_content request_id : string)
    (quality format scene_name : option string) (w : world) :
  let r := VariantB.render_script E script_content request_id quality format
             scene_name true w in
  dict_lookup (fst r) "success" = Some (JBool true) ->
  exists text size,
    dict_lookup (fst r) "video_base64" = Some (JStr text) /\
    dict_lookup (fst r) "file_size" = Some (JInt (Z.of_nat size)) /\
    String.length text = (4 * ((size + 2) / 3))%nat /\
    dict_lookup (fst r) "video_size_mb"
    = Some (JFloat (Z.of_nat size # 1048576)).
Proof.
  cbv zeta. unfold VariantB.render_script, VariantB.render_try.
  destruct (validate_script script_content) as [[|] msg]; cbn [negb];
    [|intros H; discriminate H].
  render_cases; cbn [fst]; intros H; try discriminate H; unify_outcomes.
  eexists _, _. split; [reflexivity|]. split; [reflexivity|].
  split; [apply b64encode_length | reflexivity].
Qed.

Lemma inline_data_size_witness :
  let r := VariantB.render_script (stub_env stub_render None) valid_script
             "req-0" None None None true empty_world in
  exists text size,
    dict_lookup (fst r) "video_base64" = Some (JStr text) /\
    dict_lookup (fst r) "file_size" = Some (JInt (Z.of_nat size)) /\
    String.length text = (4 * ((size + 2) / 3))%nat /\
    dict_lookup (fst r) "video_size_mb"
    = Some (JFloat (Z.of_nat size # 1048576)).
Proof.
  apply (inline_data_size (stub_env stub_render None) valid_script "req-0"
           None None None empty_world).
  vm_compute. reflexivity.
Defined.

(** ** The inline-data switch *)

(** X22: variant B reads [return_base64] by Python truthiness, not as a
    boolean: a request is answered exactly as if the field were [true] when
    its value is truthy (the string "false", a non-zero number, a non-empty
    array) and as if it were [false] when it is falsy (null, 0, the empty
    string). *)
Theorem return_base64_by_truthiness (E : env) (script : string)
    (quality format scene_name : option string) (flag : json) (w : world) :
  VariantB.render_video E
    (GetJsonReturns
       (request_body_inline script quality format scene_name flag)) w
  = VariantB.render_video E
      (GetJsonReturns
         (request_body_inline script quality format scene_name
            (JBool (truthy flag)))) w.
Proof.
  unfold VariantB.render_video, uuid4, request_body_inline.
  destruct quality, format, scene_name;
    cbn -[VariantB.render_script];
    destruct (String.eqb script ""); reflexivity.
Qed.

Example inline_switch_string_false :
  exists text,
    VariantB.render_video (stub_env stub_render None)
      (GetJsonReturns
         (request_body_inline valid_script None None None (JStr "false")))
      empty_world
    = VariantB.render_video (stub_env stub_render None)
        (GetJsonReturns
           (request_body_inline valid_script None None None (JBool true)))
        empty_world /\
    option_map
      (fun rw => match body (fst rw) with
                 | JObj fields => dict_lookup fields "video_base64"
                 | _ => None
                 end)
      (VariantB.render_video (stub_env stub_render None)
         (GetJsonReturns
            (request_body_inline valid_script None None None (JStr "false")))
         empty_world)
    = Some (Some (JStr text)).
Proof. eexists. split; vm_compute; reflexivity. Qed.

Example metrics_of_a_failed_render :
  metrics
    (snd (VariantA.render_script (monitored_env stub_fail None) valid_script
            "req-0" None None None empty_world))
  = [(1 - 0, false)%Q].
Proof. vm_compute. reflexivity. Qed.

(** ** One function on fields of any type *)

Lemma py_or_typed (x : option string) (d : string) :
  py_or (json_of_opt_str x) d = JStr (str_or x d).
Proof.
  unfold py_or, str_or. destruct x as [s|]; cbn; [|reflexivity].
  destruct (String.eqb s ""); reflexivity.
Qed.

Lemma join_check_strings (E : env) (index : nat) (items : list string) :
  join_check E index (map JStr items) = inr items.
Proof.
  revert index. induction items as [|s items IH]; intros index; cbn;
    [reflexivity | rewrite IH; reflexivity].
Qed.

Lemma scene_items_typed (scene_name : option string) :
  (if truthy (json_of_opt_str scene_name)
   then [json_of_opt_str scene_name] else [])
  = map JStr (scene_arg scene_name).
Proof.
  destruct scene_name as [s|]; cbn; [|reflexivity].
  destruct (String.eqb s ""); reflexivity.
Qed.

Lemma render_try_json_A_typed (E : env) (script_content request_id : string)
    (quality format : string) (scene_name : option string) (w : world) :
  VariantA.render_try_json E (JStr script_content) request_id (JStr quality)
    (VariantA.quality_flag quality) (JStr format)
    (json_of_opt_str scene_name) w
  = VariantA.render_try E script_content request_id quality format scene_name
      w.
Proof.
  unfold VariantA.render_try_json, VariantA.render_try,
    validate_script_json, VariantA.cmd_items.
  rewrite scene_items_typed.
  change ([JStr "manim"; JStr (script_path request_id); JStr "--output_file";
           JStr ("video_" +:+ request_id); JStr "--media_dir";
           JStr (path_join OUTPUT_DIR request_id); JStr "--quality";
           JStr (VariantA.quality_flag quality); JStr "--format"; JStr format;
           JStr "--disable_caching"] ++ map JStr (scene_arg scene_name))
    with (map JStr (VariantA.build_cmd request_id
                      (VariantA.quality_flag quality) format scene_name)).
  rewrite join_check_strings.
  destruct (validate_script script_content) as [[|] msg]; reflexivity.
Qed.

Lemma render_try_json_B_typed (E : env) (script_content request_id : string)
    (quality format : string) (scene_name : option string)
    (return_base64 : bool) (w : world) :
  VariantB.render_try_json E (JStr script_content) request_id (JStr quality)
    (JStr format) (json_of_opt_str scene_name) return_base64 w
  = VariantB.render_try E script_content request_id quality format scene_name
      return_base64 w.
Proof.
  unfold VariantB.render_try_json, VariantB.render_try,
    validate_script_json, VariantB.cmd_items.
  rewrite scene_items_typed.
  change ([JStr "manim"; JStr (script_path request_id); JStr "--output_file";
           JStr ("video_" +:+ request_id); JStr "--media_dir";
           JStr (path_join OUTPUT_DIR request_id);
           JStr ("--" +:+ py_str E (JStr quality)); JStr "--format";
           JStr format; JStr "--disable_caching"]
            ++ map JStr (scene_arg scene_name))
    with (map JStr (VariantB.build_cmd request_id quality format scene_name)).
  rewrite join_check_strings.
  destruct (validate_script script_content) as [[|] msg]; reflexivity.
Qed.

(** On fields of the documented types, [render_script_json] is
    [render_script]: the two definitions embed one function. *)
Lemma render_script_json_typed (E : env) (script_content request_id : string)
    (quality format scene_name : option string) (return_base64 : bool)
    (w : world) :
  VariantA.render_script_json E (JStr script_content) request_id
    (json_of_opt_str quality) (json_of_opt_str format)
    (json_of_opt_str scene_name) w
  = (inr (fst (VariantA.render_script E script_content request_id quality
                 format scene_name w)),
     snd (VariantA.render_script E script_content request_id quality format
            scene_name w)) /\
  VariantB.render_script_json E (JStr script_content) request_id
    (json_of_opt_str quality) (json_of_opt_str format)
    (json_of_opt_str scene_name) return_base64 w
  = VariantB.render_script E script_content request_id quality format
      scene_name return_base64 w.
Proof.
  unfold VariantA.render_script_json, VariantB.render_script_json,
    VariantA.render_script, VariantB.render_script.
  rewrite !py_or_typed. cbn [VariantA.quality_flag_json].
  rewrite render_try_json_A_typed, render_try_json_B_typed.
  split; [|reflexivity].
  destruct (VariantA.render_try E script_content request_id
              (str_or quality (DEFAULT_QUALITY E))
              (str_or format (DEFAULT_FORMAT E)) scene_name w)
    as [[[ | | | ]|result] w1]; reflexivity.
Qed.
